(** * Document store adapter of the embeddings Cloud Functions

    Shallow embedding of
    - [save-embeddings/main.py]     ([save_embeddings]),
    - [retrieve-embeddings/main.py] ([retrieve_embeddings]),
    - [delete-embeddings/main.py]   ([delete_embeddings]).

    The handlers of the [try] blocks take the HTTP request body, the value
    [request.get_json(silent=True)] ([None] when absent or not JSON); the
    entry points ([http_entry]) add the method dispatch and the CORS
    headers around them.  The [print] diagnostics are not modelled.  The Cloud Storage bucket is an
    explicit state: a presence flag, the list of objects (key and payload,
    in the order the service lists them) and the set of operations that
    raise (a storage error).  Every handler runs in a state-and-exception
    monad; an exception escaping the [try] block becomes the HTTP 500
    response, and the store changes made before it are kept. *)

From Stdlib Require Import String Ascii List ZArith Bool Lia.
Import ListNotations.
Open Scope string_scope.
Set Warnings "-register-all".

(** ** JSON values and the Python operations the handlers apply to them *)

(** Numbers are kept as integers: the floats of the embeddings are opaque
    payload and never inspected. *)
Inductive json : Type :=
| JNull
| JBool (b : bool)
| JNum (z : Z)
| JStr (s : string)
| JArr (xs : list json)
| JObj (kvs : list (string * json)).

(** Dictionary lookup on an association list (a Python dict: keys are
    distinct, the first binding is the one that counts). *)
Fixpoint assoc {A : Type} (k : string) (d : list (string * A)) : option A :=
  match d with
  | [] => None
  | (k', v) :: t => if String.eqb k k' then Some v else assoc k t
  end.

(** [d[k] = v]: an existing key keeps its position, a new key goes last. *)
Fixpoint dict_set {A : Type} (k : string) (v : A) (d : list (string * A))
  : list (string * A) :=
  match d with
  | [] => [(k, v)]
  | (k', v') :: t => if String.eqb k k' then (k, v) :: t
                     else (k', v') :: dict_set k v t
  end.

(** Python truthiness ([if not x], [if x]). *)
Definition truthy (j : json) : bool :=
  match j with
  | JNull => false
  | JBool b => b
  | JNum z => negb (Z.eqb z 0)
  | JStr s => negb (String.eqb s "")
  | JArr xs => match xs with [] => false | _ => true end
  | JObj kvs => match kvs with [] => false | _ => true end
  end.

(** Outcome of a computation that may raise a Python exception. *)
Inductive outcome (A : Type) : Type :=
| Ok (a : A)
| Raise (msg : string).
Arguments Ok {A} a.
Arguments Raise {A} msg.

Fixpoint is_substring (k s : string) : bool :=
  String.prefix k s ||
  match s with
  | EmptyString => false
  | String _ r => is_substring k r
  end.

(** The Python type name of a value, as error messages print it. *)
Definition py_type_name (j : json) : string :=
  match j with
  | JNull => "NoneType"
  | JBool _ => "bool"
  | JNum _ => "int"
  | JStr _ => "str"
  | JArr _ => "list"
  | JObj _ => "dict"
  end.

(** An exception carries [str(e)], the text the handlers put in their 500
    responses. *)

(** [k in j] for a key [k] of type [str]. *)
Definition py_contains (j : json) (k : string) : outcome bool :=
  match j with
  | JObj kvs => Ok (match assoc k kvs with Some _ => true | None => false end)
  | JArr xs => Ok (existsb (fun x => match x with
                                   | JStr s => String.eqb s k
                                   | _ => false end) xs)
  | JStr s => Ok (is_substring k s)
  | _ => Raise ("argument of type '" ++ py_type_name j ++ "' is not iterable")
  end.

(** [j[k]]; [str(KeyError(k))] is [repr(k)], and the key names used here
    need no escape. *)
Definition py_getitem (j : json) (k : string) : outcome json :=
  match j with
  | JObj kvs => match assoc k kvs with
                | Some v => Ok v
                | None => Raise ("'" ++ k ++ "'")
                end
  | JArr _ => Raise "list indices must be integers or slices, not str"
  | JStr _ => Raise "string indices must be integers, not 'str'"
  | _ => Raise ("'" ++ py_type_name j ++ "' object is not subscriptable")
  end.

(** [j.get(k)]. *)
Definition py_get (j : json) (k : string) : outcome json :=
  match j with
  | JObj kvs => Ok (match assoc k kvs with Some v => v | None => JNull end)
  | _ => Raise ("'" ++ py_type_name j ++ "' object has no attribute 'get'")
  end.

(** Decimal rendering of integers ([str(n)]). *)
Fixpoint dec_of_N_aux (fuel : nat) (n : N) (acc : string) : string :=
  match fuel with
  | O => acc
  | S f =>
      let acc' := String (ascii_of_N (48 + N.modulo n 10)) acc in
      if N.ltb n 10 then acc' else dec_of_N_aux f (N.div n 10) acc'
  end.

Definition dec_of_N (n : N) : string :=
  dec_of_N_aux (S (N.to_nat (N.size n))) n "".

Definition dec_of_Z (z : Z) : string :=
  match z with
  | Zneg p => "-" ++ dec_of_N (Npos p)
  | _ => dec_of_N (Z.to_N z)
  end.

Definition dec_of_nat (n : nat) : string := dec_of_N (N.of_nat n).

Definition hex_digit (n : nat) : ascii :=
  if Nat.ltb n 10 then ascii_of_nat (48 + n) else ascii_of_nat (87 + n).

Fixpoint str_has (c : ascii) (s : string) : bool :=
  match s with
  | EmptyString => false
  | String c' r => Ascii.eqb c c' || str_has c r
  end.

(** The body of [repr(s)] for the quote [q]: the quote and the backslash
    are escaped, tab, newline and carriage return by their letters, the
    other ASCII control characters and DEL as [\xhh].  Strings are the
    UTF-8 bytes of the text; the bytes of non-ASCII characters are kept,
    as [repr] keeps printable non-ASCII characters (it escapes the
    non-printable ones, which this model does not single out). *)
Fixpoint repr_chars (q : ascii) (s : string) : string :=
  match s with
  | EmptyString => EmptyString
  | String c r =>
      let n := nat_of_ascii c in
      let rest := repr_chars q r in
      if Ascii.eqb c q || Ascii.eqb c "\"%char then String "\"%char (String c rest)
      else if Nat.eqb n 9 then String "\"%char (String "t"%char rest)
      else if Nat.eqb n 10 then String "\"%char (String "n"%char rest)
      else if Nat.eqb n 13 then String "\"%char (String "r"%char rest)
      else if Nat.ltb n 32 || Nat.eqb n 127 then
        String "\"%char (String "x"%char (String (hex_digit (n / 16))
                                              (String (hex_digit (n mod 16)) rest)))
      else String c rest
  end.

(** [repr(s)] of a [str]: single quotes, unless [s] holds a single quote
    and no double quote. *)
Definition py_repr_str (s : string) : string :=
  let dq := ascii_of_nat 34 in
  let q := if str_has "'"%char s && negb (str_has dq s) then dq else "'"%char in
  String q (repr_chars q s ++ String q EmptyString).

(** [repr] of a JSON value as Python prints the decoded object. *)
Fixpoint py_repr (j : json) : string :=
  match j with
  | JNull => "None"
  | JBool true => "True"
  | JBool false => "False"
  | JNum z => dec_of_Z z
  | JStr s => py_repr_str s
  | JArr xs =>
      "[" ++ (fix items (l : list json) : string :=
                match l with
                | [] => ""
                | [x] => py_repr x
                | x :: t => py_repr x ++ ", " ++ items t
                end) xs ++ "]"
  | JObj kvs =>
      "{" ++ (fix items (l : list (string * json)) : string :=
                match l with
                | [] => ""
                | [(k, v)] => py_repr_str k ++ ": " ++ py_repr v
                | (k, v) :: t => py_repr_str k ++ ": " ++ py_repr v ++ ", " ++ items t
                end) kvs ++ "}"
  end.

(** [f'{j}'] formatting, i.e. [str(j)]. *)
Definition py_str (j : json) : string :=
  match j with
  | JStr s => s
  | _ => py_repr j
  end.

Fixpoint str_chars (s : string) : list json :=
  match s with
  | EmptyString => []
  | String c r => JStr (String c EmptyString) :: str_chars r
  end.

(** [acc.extend(j)]: iterates [j]. *)
Definition py_extend (acc : list json) (j : json) : outcome (list json) :=
  match j with
  | JArr xs => Ok (acc ++ xs)%list
  | JObj kvs => Ok (acc ++ map (fun kv => JStr (fst kv)) kvs)%list
  | JStr s => Ok (acc ++ str_chars s)%list
  | _ => Raise ("'" ++ py_type_name j ++ "' object is not iterable")
  end.

(** [s.split('/')]. *)
Fixpoint split_slash (s : string) : list string :=
  match s with
  | EmptyString => [""]
  | String c rest =>
      let r := split_slash rest in
      if Ascii.eqb c "/"%char then "" :: r
      else match r with
           | [] => [String c EmptyString]
           | h :: t => String c h :: t
           end
  end.

(** ** The object store *)

Inductive op : Type :=
| OpBucketExists
| OpCreateBucket
| OpBlobExists (k : string)
| OpUpload (k : string)
| OpDownload (k : string)
| OpList (p : string)
| OpDelete (k : string).

Definition op_eqb (a b : op) : bool :=
  match a, b with
  | OpBucketExists, OpBucketExists => true
  | OpCreateBucket, OpCreateBucket => true
  | OpBlobExists k, OpBlobExists k' => String.eqb k k'
  | OpUpload k, OpUpload k' => String.eqb k k'
  | OpDownload k, OpDownload k' => String.eqb k k'
  | OpList p, OpList p' => String.eqb p p'
  | OpDelete k, OpDelete k' => String.eqb k k'
  | _, _ => false
  end.

(** An object payload is the text stored in the blob: [Some j] for a text
    that [json.loads] decodes to [j] (every [json.dumps] output is such a
    text), [None] for a text that is not JSON. *)
Definition payload := option json.

Record store : Type := mkStore {
  bucket_present : bool;
  objects : list (string * payload);
  failing : list op
}.

Definition M (A : Type) : Type := store -> outcome A * store.

Definition ret {A : Type} (a : A) : M A := fun s => (Ok a, s).

Definition bind {A B : Type} (m : M A) (k : A -> M B) : M B :=
  fun s => match m s with
           | (Ok a, s') => k a s'
           | (Raise e, s') => (Raise e, s')
           end.

Definition throw {A : Type} (e : string) : M A := fun s => (Raise e, s).

Definition lift {A : Type} (o : outcome A) : M A :=
  match o with Ok a => ret a | Raise e => throw e end.

(** [try: m except Exception as e: h(str(e))]. *)
Definition try_catch {A : Type} (m : M A) (h : string -> M A) : M A :=
  fun s => match m s with
           | (Raise e, s') => h e s'
           | r => r
           end.

Notation "x <- m ;; k" := (bind m (fun x => k))
  (at level 61, m at next level, right associativity).

(** The service raises on an operation listed in [failing]; the text of
    the raised [GoogleAPICallError] is one fixed text here. *)
Definition guard (o : op) : M unit :=
  fun s => if existsb (op_eqb o) (failing s)
           then (Raise "503 Service Unavailable", s)
           else (Ok tt, s).

Definition with_bucket (s : store) (b : bool) : store :=
  mkStore b (objects s) (failing s).

Definition with_objects (s : store) (o : list (string * payload)) : store :=
  mkStore (bucket_present s) o (failing s).

(** [bucket.exists()] *)
Definition bucket_exists : M bool :=
  _ <- guard OpBucketExists ;;
  fun s => (Ok (bucket_present s), s).

(** [storage_client.create_bucket(BUCKET_NAME, location=...)] *)
Definition create_bucket : M unit :=
  _ <- guard OpCreateBucket ;;
  fun s => if bucket_present s then (Raise "409 Conflict", s)
           else (Ok tt, with_bucket s true).

(** [bucket.blob(k).exists()] *)
Definition blob_exists (k : string) : M bool :=
  _ <- guard (OpBlobExists k) ;;
  fun s => (Ok (bucket_present s &&
                match assoc k (objects s) with Some _ => true | None => false end), s).

(** [bucket.blob(k).upload_from_string(...)]: overwrites. *)
Definition upload (k : string) (p : payload) : M unit :=
  _ <- guard (OpUpload k) ;;
  fun s => if bucket_present s then (Ok tt, with_objects s (dict_set k p (objects s)))
           else (Raise "404 Not Found", s).

(** [blob.download_as_text()] *)
Definition download (k : string) : M payload :=
  _ <- guard (OpDownload k) ;;
  fun s => match bucket_present s, assoc k (objects s) with
           | true, Some p => (Ok p, s)
           | _, _ => (Raise "404 Not Found", s)
           end.

(** [bucket.list_blobs(prefix=p)]: the names of the objects under [p]. *)
Definition list_blobs (p : string) : M (list string) :=
  _ <- guard (OpList p) ;;
  fun s => if bucket_present s
           then (Ok (filter (String.prefix p) (map fst (objects s))), s)
           else (Raise "404 Not Found", s).

Definition remove_key (k : string) (o : list (string * payload)) :=
  filter (fun kv => negb (String.eqb k (fst kv))) o.

(** [blob.delete()] *)
Definition delete_blob (k : string) : M unit :=
  _ <- guard (OpDelete k) ;;
  fun s => match bucket_present s, assoc k (objects s) with
           | true, Some _ => (Ok tt, with_objects s (remove_key k (objects s)))
           | _, _ => (Raise "404 Not Found", s)
           end.

(** [json.loads(text)]; the message of the [JSONDecodeError] depends on
    the text, one fixed message stands for it. *)
Definition json_loads (p : payload) : M json :=
  match p with
  | Some j => ret j
  | None => throw "Expecting value: line 1 column 1 (char 0)"
  end.

(** ** HTTP responses *)

Inductive response : Type :=
| Resp (status : Z) (body : json).

Definition resp_status (r : response) : Z := match r with Resp c _ => c end.
Definition resp_body (r : response) : json := match r with Resp _ b => b end.

Definition resp_field (r : response) (k : string) : option json :=
  match resp_body r with JObj kvs => assoc k kvs | _ => None end.

Definition error_resp (code : Z) (msg : string) : response :=
  Resp code (JObj [("success", JBool false); ("error", JStr msg)]).

Definition BUCKET_NAME : string := "myformsnapper-embeddings".

(** ** [save_embeddings] *)

Definition required_fields : list string :=
  ["userId"; "documentId"; "fileName"; "chunks"; "metadata"].

(** [for field in required_fields: if field not in request_json: ...] *)
Fixpoint first_missing (rj : json) (fields : list string) : outcome (option string) :=
  match fields with
  | [] => Ok None
  | f :: t =>
      match py_contains rj f with
      | Raise e => Raise e
      | Ok true => first_missing rj t
      | Ok false => Ok (Some f)
      end
  end.

Definition chunks_blob_name (user_id document_id : string) : string :=
  "users/" ++ user_id ++ "/documents/" ++ document_id ++ "/chunks.json".

Definition metadata_blob_name (user_id document_id : string) : string :=
  "users/" ++ user_id ++ "/documents/" ++ document_id ++ "/metadata.json".

Definition save_ok (document_id : json) (n : nat) (storage_url file_name : string)
  : response :=
  Resp 200 (JObj [("success", JBool true);
                  ("documentId", document_id);
                  ("chunksSaved", JNum (Z.of_nat n));
                  ("storageUrl", JStr storage_url);
                  ("storage", JStr "cloud");
                  ("message", JStr ("Successfully saved " ++ dec_of_nat n
                                     ++ " chunks for " ++ file_name))]).

(** Lines 86-94: get or create the bucket; any error is swallowed and the
    plain handle is used. *)
Definition get_or_create_bucket : M unit :=
  try_catch (b <- bucket_exists ;;
             if b then ret tt else create_bucket)
            (fun _ => ret tt).

(** Lines 86-129: get or create the bucket, write both objects. *)
Definition save_to_storage (user_id document_id file_name : json)
  (chunks : list json) (metadata : json) : M response :=
  _ <- get_or_create_bucket ;;
  let cname := chunks_blob_name (py_str user_id) (py_str document_id) in
  _ <- upload cname (Some (JArr chunks)) ;;
  let mname := metadata_blob_name (py_str user_id) (py_str document_id) in
  _ <- upload mname (Some metadata) ;;
  let storage_url := "gs://" ++ BUCKET_NAME ++ "/" ++ cname in
  ret (save_ok document_id (length chunks) storage_url (py_str file_name)).

Definition save_embeddings (request_json : option json) : M response :=
  try_catch
    (match request_json with
     | None => ret (error_resp 400 "No JSON data provided")
     | Some rj =>
       if negb (truthy rj) then ret (error_resp 400 "No JSON data provided") else
       missing <- lift (first_missing rj required_fields) ;;
       match missing with
       | Some field => ret (error_resp 400 ("Missing required field: " ++ field))
       | None =>
         user_id <- lift (py_getitem rj "userId") ;;
         document_id <- lift (py_getitem rj "documentId") ;;
         file_name <- lift (py_getitem rj "fileName") ;;
         chunks <- lift (py_getitem rj "chunks") ;;
         metadata <- lift (py_getitem rj "metadata") ;;
         match chunks with
         | JArr [] => ret (error_resp 400 "chunks array is empty")
         | JArr xs => save_to_storage user_id document_id file_name xs metadata
         | _ => ret (error_resp 400 "chunks must be an array")
         end
       end
     end)
    (fun e => ret (error_resp 500 e)).

(** ** [retrieve_embeddings] *)

Definition retrieve_ok (all_chunks all_metadata : list json) : response :=
  Resp 200 (JObj [("success", JBool true);
                  ("chunks", JArr all_chunks);
                  ("metadata", JArr all_metadata);
                  ("documentsCount", JNum (Z.of_nat (length all_metadata)));
                  ("message", JStr ("Retrieved " ++ dec_of_nat (length all_chunks)
                                     ++ " chunks from " ++ dec_of_nat (length all_metadata)
                                     ++ " documents"))]).

Definition no_documents : response :=
  Resp 200 (JObj [("success", JBool true);
                  ("chunks", JArr []);
                  ("metadata", JArr []);
                  ("documentsCount", JNum 0);
                  ("message", JStr "No documents found")]).

(** Lines 85-112: a specific document. *)
Definition retrieve_one (user_id document_id : json) : M response :=
  let cname := chunks_blob_name (py_str user_id) (py_str document_id) in
  e <- blob_exists cname ;;
  if negb e
  then ret (error_resp 404 ("Document " ++ py_str document_id ++ " not found"))
  else
    chunks_data <- download cname ;;
    chunks <- json_loads chunks_data ;;
    all_chunks <- lift (py_extend [] chunks) ;;
    let mname := metadata_blob_name (py_str user_id) (py_str document_id) in
    me <- blob_exists mname ;;
    all_metadata <- (if me
                     then metadata_data <- download mname ;;
                          metadata <- json_loads metadata_data ;;
                          ret [metadata]
                     else ret []) ;;
    ret (retrieve_ok all_chunks all_metadata).

(** Lines 121-133: [documents[doc_id][file_type] = blob]. *)
Fixpoint group_blobs (documents : list (string * list (string * string)))
  (blobs : list string) : list (string * list (string * string)) :=
  match blobs with
  | [] => documents
  | blob :: rest =>
      let parts := split_slash blob in
      let documents' :=
        if Nat.leb 5 (length parts) then
          let doc_id := nth 3 parts "" in
          let file_type := nth 4 parts "" in
          let files := match assoc doc_id documents with
                       | Some f => f
                       | None => []
                       end in
          dict_set doc_id (dict_set file_type blob files) documents
        else documents in
      group_blobs documents' rest
  end.

(** Lines 135-145: [for doc_id, files in documents.items(): ...] *)
Fixpoint collect (documents : list (string * list (string * string)))
  (all_chunks all_metadata : list json) : M (list json * list json) :=
  match documents with
  | [] => ret (all_chunks, all_metadata)
  | (doc_id, files) :: rest =>
      all_chunks' <- (match assoc "chunks.json" files with
                      | Some b => chunks_data <- download b ;;
                                  chunks <- json_loads chunks_data ;;
                                  lift (py_extend all_chunks chunks)
                      | None => ret all_chunks
                      end) ;;
      all_metadata' <- (match assoc "metadata.json" files with
                        | Some b => metadata_data <- download b ;;
                                    metadata <- json_loads metadata_data ;;
                                    ret (all_metadata ++ [metadata])%list
                        | None => ret all_metadata
                        end) ;;
      collect rest all_chunks' all_metadata'
  end.

Definition user_prefix (user_id : string) : string :=
  "users/" ++ user_id ++ "/documents/".

(** Lines 114-147: all documents of the user. *)
Definition retrieve_all (user_id : json) : M response :=
  blobs <- list_blobs (user_prefix (py_str user_id)) ;;
  let documents := group_blobs [] blobs in
  acc <- collect documents [] [] ;;
  ret (retrieve_ok (fst acc) (snd acc)).

Definition retrieve_embeddings (request_json : option json) : M response :=
  try_catch
    (match request_json with
     | None => ret (error_resp 400 "No JSON data provided")
     | Some rj =>
       if negb (truthy rj) then ret (error_resp 400 "No JSON data provided") else
       has_user <- lift (py_contains rj "userId") ;;
       if negb has_user then ret (error_resp 400 "Missing required field: userId") else
       user_id <- lift (py_getitem rj "userId") ;;
       document_id <- lift (py_get rj "documentId") ;;
       b <- bucket_exists ;;
       if negb b then ret no_documents
       else if truthy document_id then retrieve_one user_id document_id
       else retrieve_all user_id
     end)
    (fun e => ret (error_resp 500 e)).

(** ** [delete_embeddings] *)

Definition delete_ok (deleted_count : nat) (message : string) : response :=
  Resp 200 (JObj [("success", JBool true);
                  ("documentsDeleted", JNum (Z.of_nat deleted_count));
                  ("message", JStr message)]).

Definition nothing_to_delete : response :=
  Resp 200 (JObj [("success", JBool true);
                  ("documentsDeleted", JNum 0);
                  ("message", JStr "No documents to delete")]).

(** [for blob in blobs: blob.delete()] *)
Fixpoint delete_blobs (blobs : list string) : M unit :=
  match blobs with
  | [] => ret tt
  | b :: rest => _ <- delete_blob b ;; delete_blobs rest
  end.

(** [documents.add(doc_id)] on a Python set. *)
Definition set_add (x : string) (xs : list string) : list string :=
  if existsb (String.eqb x) xs then xs else (xs ++ [x])%list.

(** Lines 95-101: the set of document ids of the listing. *)
Fixpoint doc_set (documents : list string) (blobs : list string) : list string :=
  match blobs with
  | [] => documents
  | blob :: rest =>
      let parts := split_slash blob in
      let documents' := if Nat.leb 5 (length parts)
                        then set_add (nth 3 parts "") documents
                        else documents in
      doc_set documents' rest
  end.

Definition document_prefix (user_id document_id : string) : string :=
  "users/" ++ user_id ++ "/documents/" ++ document_id ++ "/".

(** Lines 68-86. *)
Definition delete_one (user_id document_id : json) : M response :=
  blobs <- list_blobs (document_prefix (py_str user_id) (py_str document_id)) ;;
  match blobs with
  | [] => ret (error_resp 404 ("Document " ++ py_str document_id ++ " not found"))
  | _ =>
    _ <- delete_blobs blobs ;;
    ret (delete_ok 1 ("Successfully deleted document " ++ py_str document_id))
  end.

(** Lines 88-109. *)
Definition delete_all (user_id : json) : M response :=
  blobs <- list_blobs (user_prefix (py_str user_id)) ;;
  let documents := doc_set [] blobs in
  _ <- delete_blobs blobs ;;
  let deleted_count := length documents in
  ret (delete_ok deleted_count ("Successfully deleted " ++ dec_of_nat deleted_count
                                 ++ " documents for user " ++ py_str user_id)).

Definition delete_embeddings (request_json : option json) : M response :=
  try_catch
    (match request_json with
     | None => ret (error_resp 400 "No JSON data provided")
     | Some rj =>
       if negb (truthy rj) then ret (error_resp 400 "No JSON data provided") else
       has_user <- lift (py_contains rj "userId") ;;
       if negb has_user then ret (error_resp 400 "Missing required field: userId") else
       user_id <- lift (py_getitem rj "userId") ;;
       document_id <- lift (py_get rj "documentId") ;;
       b <- bucket_exists ;;
       if negb b then ret nothing_to_delete
       else if truthy document_id then delete_one user_id document_id
       else delete_all user_id
     end)
    (fun e => ret (error_resp 500 e)).

(** ** HTTP entry points: method dispatch and CORS headers *)

Record request : Type := mkRequest {
  method : string;
  get_json : option json
}.

Definition headers : Type := list (string * string).

(** The first component of a Flask reply: [jsonify(...)] or a text. *)
Inductive reply_body : Type :=
| RJson (j : json)
| RText (t : string).

(** The [(body, status, headers)] triple a handler returns. *)
Record http_reply : Type := mkReply {
  reply_content : reply_body;
  reply_status : Z;
  reply_headers : headers
}.

Definition preflight_headers : headers :=
  [("Access-Control-Allow-Origin", "*");
   ("Access-Control-Allow-Methods", "POST");
   ("Access-Control-Allow-Headers", "Content-Type");
   ("Access-Control-Max-Age", "3600")].

Definition cors_headers : headers := [("Access-Control-Allow-Origin", "*")].

(** [return ('', 204, headers)] *)
Definition preflight_reply : http_reply := mkReply (RText "") 204 preflight_headers.

(** [return (jsonify(body), status, headers)] *)
Definition with_cors (r : response) : http_reply :=
  match r with Resp c b => mkReply (RJson b) c cors_headers end.

(** Lines 47-61 of save, 43-58 of retrieve and 29-44 of delete: an
    [OPTIONS] preflight is answered before anything else, every other
    request runs the [try] block. *)
Definition http_entry (handler : option json -> M response) (request : request)
  : M http_reply :=
  if String.eqb (method request) "OPTIONS" then ret preflight_reply
  else r <- handler (get_json request) ;; ret (with_cors r).

Definition save_embeddings_http : request -> M http_reply := http_entry save_embeddings.
Definition retrieve_embeddings_http : request -> M http_reply := http_entry retrieve_embeddings.
Definition delete_embeddings_http : request -> M http_reply := http_entry delete_embeddings.

(** ** Notions used to state the properties *)

(** The store after [get_or_create_bucket]. *)
Definition bucket_step (s : store) : store :=
  if existsb (op_eqb OpBucketExists) (failing s) then s
  else if bucket_present s then s
  else if existsb (op_eqb OpCreateBucket) (failing s) then s
  else with_bucket s true.

Fixpoint no_slash (s : string) : bool :=
  match s with
  | EmptyString => true
  | String c r => negb (Ascii.eqb c "/"%char) && no_slash r
  end.

(** The key-space convention [users/{u}/documents/{d}/{f}]. *)
Definition doc_key (u d f : string) : string :=
  "users/" ++ u ++ "/documents/" ++ d ++ "/" ++ f.

(** The 4th path segment (index 3) and the [len(parts) >= 5] test. *)
Definition seg3 (k : string) : string := nth 3 (split_slash k) "".
Definition has5 (k : string) : bool := Nat.leb 5 (length (split_slash k)).

(** Names the service lists under a prefix. *)
Definition listing (p : string) (s : store) : list string :=
  filter (String.prefix p) (map fst (objects s)).

(** The 5th path segment (index 4): the file name [group_blobs] keys by. *)
Definition seg4 (k : string) : string := nth 4 (split_slash k) "".

(** The name [group_blobs] keeps for document [d] and file [f] after
    reading the names [L]: the last one with at least five segments, 4th
    segment [d] and 5th segment [f]. *)
Definition last_match (d f : string) (L : list string) : option string :=
  fold_left (fun acc k => if has5 k && String.eqb (seg3 k) d && String.eqb (seg4 k) f
                          then Some k else acc) L None.

(** The name under [documents[d][f]] in all-documents Retrieve, and the
    payload stored there. *)
Definition selected (u d f : string) (s : store) : option string :=
  last_match d f (listing (user_prefix u) s).

Definition selected_payload (u d f : string) (s : store) : option payload :=
  match selected u d f s with
  | Some k => assoc k (objects s)
  | None => None
  end.

(** What [all_chunks.extend(chunks)] adds for document [d], and whether it
    succeeds: the selected [chunks.json], when there is one, is JSON that
    [extend] accepts. *)
Definition selected_chunks (u d : string) (s : store) : list json :=
  match selected_payload u d "chunks.json" s with
  | Some (Some j) => match py_extend [] j with Ok xs => xs | Raise _ => [] end
  | _ => []
  end.

Definition selected_chunks_ok (u d : string) (s : store) : bool :=
  match selected_payload u d "chunks.json" s with
  | Some (Some j) => match py_extend [] j with Ok _ => true | Raise _ => false end
  | Some None => false
  | None => true
  end.

(** What [all_metadata.append(metadata)] adds for document [d], and whether
    the selected [metadata.json], when there is one, is JSON. *)
Definition selected_metadata (u d : string) (s : store) : list json :=
  match selected_payload u d "metadata.json" s with
  | Some (Some m) => [m]
  | _ => []
  end.

Definition selected_metadata_ok (u d : string) (s : store) : bool :=
  match selected_payload u d "metadata.json" s with
  | Some None => false
  | _ => true
  end.

(** Every object listed under the user prefix lives at
    [users/{u}/documents/{d}/{f}] with slash-free segments. *)
Definition key_space_ok (u : string) (s : store) : Prop :=
  no_slash u = true /\
  forall k, In k (listing (user_prefix u) s) ->
    exists d f, k = doc_key u d f /\ no_slash d = true /\ no_slash f = true.

(** [chunks.json] holds a JSON array and [metadata.json] a JSON text. *)
Definition payloads_ok (u : string) (s : store) : Prop :=
  (forall d p, no_slash d = true ->
     assoc (doc_key u d "chunks.json") (objects s) = Some p ->
     exists xs, p = Some (JArr xs)) /\
  (forall d p, no_slash d = true ->
     assoc (doc_key u d "metadata.json") (objects s) = Some p -> p <> None).

Definition stored_chunks (u d : string) (s : store) : list json :=
  match assoc (doc_key u d "chunks.json") (objects s) with
  | Some (Some (JArr xs)) => xs
  | _ => []
  end.

Definition stored_metadata (u d : string) (s : store) : list json :=
  match assoc (doc_key u d "metadata.json") (objects s) with
  | Some (Some m) => [m]
  | _ => []
  end.

(** A required field absent from a request object. *)
Definition missing_in (kvs : list (string * json)) (f : string) : bool :=
  match assoc f kvs with None => true | Some _ => false end.


(** What [group_blobs] has built after reading the names [P]: one entry
    per distinct 4th segment, and under document [d] the file [f] maps to
    the key [users/{u}/documents/{d}/{f}] exactly when that key was read. *)
Definition group_inv (u : string) (G : list (string * list (string * string)))
  (P : list string) : Prop :=
  NoDup (map fst G) /\
  (forall d, In d (map fst G) <-> exists k, In k P /\ seg3 k = d) /\
  (forall d files, In (d, files) G ->
     no_slash d = true /\
     forall f, no_slash f = true ->
       assoc f files = if existsb (String.eqb (doc_key u d f)) P
                       then Some (doc_key u d f) else None).

(** What [group_blobs] has built after reading the names [P], on any
    listing: one entry per distinct 4th segment of a name with at least
    five segments, and under document [d] the file [f] maps to the last
    such name with 5th segment [f]. *)
Definition group_gen (G : list (string * list (string * string))) (P : list string) : Prop :=
  NoDup (map fst G) /\
  (forall d, In d (map fst G) <-> exists k, In k P /\ has5 k = true /\ seg3 k = d) /\
  (forall d files, In (d, files) G -> forall f, assoc f files = last_match d f P).

(** The objects outside the prefix [p]. *)
Definition drop_prefix (p : string) (o : list (string * payload)) :=
  filter (fun kv => negb (String.prefix p (fst kv))) o.

(** A computation that leaves the store as it found it. *)
Definition read_only {A : Type} (m : M A) : Prop := forall s, snd (m s) = s.

(** A computation whose only effect is to remove objects. *)
Definition only_removes {A : Type} (m : M A) : Prop :=
  forall s, bucket_present (snd (m s)) = bucket_present s /\
            failing (snd (m s)) = failing s /\
            exists keep, objects (snd (m s)) = filter keep (objects s).

(** ** Sample requests and stores *)

Arguments chunks_blob_name : simpl never.
Arguments metadata_blob_name : simpl never.
Arguments user_prefix : simpl never.
Arguments document_prefix : simpl never.
Arguments doc_key : simpl never.

Definition empty_store : store := mkStore false [] [].

Definition save_request (u d fn : string) (chunks : list json) (metadata : json) : json :=
  JObj [("userId", JStr u); ("documentId", JStr d); ("fileName", JStr fn);
        ("chunks", JArr chunks); ("metadata", metadata)].

Definition doc_request (u d : string) : json :=
  JObj [("userId", JStr u); ("documentId", JStr d)].

Definition user_request (u : string) : json := JObj [("userId", JStr u)].

Definition chunk0 : json :=
  JObj [("fileName", JStr "resume.pdf"); ("chunkIndex", JNum 0);
        ("text", JStr "chunk text"); ("embedding", JArr [JNum 1; JNum 2]);
        ("timestamp", JNum 1234567890)].

Definition meta0 : json :=
  JObj [("fileName", JStr "resume.pdf"); ("documentId", JStr "doc_456");
        ("chunksProcessed", JNum 1); ("uploadedAt", JNum 1234567890)].

Example save_sample :
  fst (save_embeddings (Some (save_request "user_123" "doc_456" "resume.pdf" [chunk0] meta0))
         empty_store)
  = Ok (save_ok (JStr "doc_456") 1
          "gs://myformsnapper-embeddings/users/user_123/documents/doc_456/chunks.json"
          "resume.pdf").
Proof. reflexivity. Qed.

Example retrieve_sample :
  let s := snd (save_embeddings (Some (save_request "user_123" "doc_456" "resume.pdf"
                                       [chunk0] meta0)) empty_store) in
  fst (retrieve_embeddings (Some (doc_request "user_123" "doc_456")) s)
  = Ok (retrieve_ok [chunk0] [meta0])
  /\ fst (retrieve_embeddings (Some (user_request "user_123")) s)
  = Ok (retrieve_ok [chunk0] [meta0])
  /\ fst (delete_embeddings (Some (user_request "user_123")) s)
  = Ok (delete_ok 1 "Successfully deleted 1 documents for user user_123").
Proof. repeat split; reflexivity. Qed.

(** ** General lemmas *)

Ltac unfold_M :=
  cbv beta iota zeta delta [ret bind throw lift try_catch guard bucket_exists
    create_bucket blob_exists upload download list_blobs delete_blob json_loads
    get_or_create_bucket with_bucket with_objects].

(** Rewrite with [H] and simplify until [H] no longer applies. *)
Ltac rw_simpl H := repeat (rewrite H; simpl).

Lemma assoc_dict_set_same {A : Type} (k : string) (v : A) d :
  assoc k (dict_set k v d) = Some v.
Proof.
  induction d as [|[k' v'] t IH]; simpl.
  - now rewrite String.eqb_refl.
  - destruct (String.eqb k k') eqn:E; simpl.
    + now rewrite String.eqb_refl.
    + now rewrite E.
Qed.

Lemma assoc_dict_set_other {A : Type} (k k' : string) (v : A) d :
  k <> k' -> assoc k (dict_set k' v d) = assoc k d.
Proof.
  intros Hne. induction d as [|[k0 v0] t IH]; simpl.
  - destruct (String.eqb k k') eqn:E; [apply String.eqb_eq in E; congruence|reflexivity].
  - destruct (String.eqb k' k0) eqn:E; simpl.
    + apply String.eqb_eq in E; subst k0.
      destruct (String.eqb k k') eqn:E2; [apply String.eqb_eq in E2; congruence|reflexivity].
    + destruct (String.eqb k k0); auto.
Qed.

Lemma append_cancel_l (a b c : string) : a ++ b = a ++ c -> b = c.
Proof. induction a; simpl; intros H; [exact H|injection H; auto]. Qed.

Lemma chunks_metadata_names_differ u d :
  chunks_blob_name u d <> metadata_blob_name u d.
Proof.
  unfold chunks_blob_name, metadata_blob_name. intros H.
  apply append_cancel_l in H. apply append_cancel_l in H.
  apply append_cancel_l in H. apply append_cancel_l in H. discriminate.
Qed.

Lemma get_or_create_bucket_spec s :
  get_or_create_bucket s = (Ok tt, bucket_step s).
Proof.
  destruct s as [b o f].
  unfold bucket_step; unfold_M; simpl.
  destruct (existsb (op_eqb OpBucketExists) f); simpl; [reflexivity|].
  destruct b; simpl; [reflexivity|].
  destruct (existsb (op_eqb OpCreateBucket) f); reflexivity.
Qed.

Lemma upload_spec k p s :
  upload k p s =
  if existsb (op_eqb (OpUpload k)) (failing s)
  then (Raise "503 Service Unavailable", s)
  else if bucket_present s then (Ok tt, with_objects s (dict_set k p (objects s)))
  else (Raise "404 Not Found", s).
Proof. unfold_M. destruct (existsb _ _); reflexivity. Qed.

Lemma save_to_storage_spec u d fn xs m s :
  save_to_storage u d fn xs m s =
  let cname := chunks_blob_name (py_str u) (py_str d) in
  let mname := metadata_blob_name (py_str u) (py_str d) in
  match upload cname (Some (JArr xs)) (bucket_step s) with
  | (Ok _, s2) =>
      match upload mname (Some m) s2 with
      | (Ok _, s3) =>
          (Ok (save_ok d (length xs) ("gs://" ++ BUCKET_NAME ++ "/" ++ cname)
                 (py_str fn)), s3)
      | (Raise e, s3) => (Raise e, s3)
      end
  | (Raise e, s2) => (Raise e, s2)
  end.
Proof.
  unfold save_to_storage. unfold bind at 1. rewrite get_or_create_bucket_spec.
  unfold bind. cbv zeta.
  destruct (upload _ _ (bucket_step s)) as [[] s2]; [|reflexivity].
  destruct (upload _ _ s2) as [[] s3]; reflexivity.
Qed.

Lemma save_to_storage_healthy u d fn xs m s :
  failing s = [] ->
  save_to_storage u d fn xs m s =
  (Ok (save_ok d (length xs)
         ("gs://" ++ BUCKET_NAME ++ "/" ++ chunks_blob_name (py_str u) (py_str d))
         (py_str fn)),
   mkStore true
     (dict_set (metadata_blob_name (py_str u) (py_str d)) (Some m)
        (dict_set (chunks_blob_name (py_str u) (py_str d)) (Some (JArr xs)) (objects s)))
     []).
Proof.
  intros Hf. rewrite save_to_storage_spec.
  destruct s as [b o f]; simpl in Hf; subst f.
  unfold bucket_step; simpl.
  destruct b; rewrite !upload_spec; reflexivity.
Qed.

Lemma save_request_valid u d fn xs m s :
  xs <> [] ->
  save_embeddings (Some (save_request u d fn xs m)) s =
  try_catch (save_to_storage (JStr u) (JStr d) (JStr fn) xs m)
            (fun e => ret (error_resp 500 e)) s.
Proof. destruct xs; [congruence|reflexivity]. Qed.

Lemma retrieve_doc_request u d s :
  d <> "" -> failing s = [] ->
  retrieve_embeddings (Some (doc_request u d)) s =
  if bucket_present s
  then try_catch (retrieve_one (JStr u) (JStr d)) (fun e => ret (error_resp 500 e)) s
  else (Ok no_documents, s).
Proof.
  intros Hd Hf. assert (Hd' : String.eqb d "" = false) by (apply String.eqb_neq; exact Hd).
  destruct s as [b o f]; simpl in Hf; subst f.
  unfold retrieve_embeddings. unfold_M. simpl. rewrite Hd'.
  destruct b; reflexivity.
Qed.

Lemma retrieve_one_missing u d s :
  failing s = [] -> bucket_present s = true ->
  assoc (chunks_blob_name u d) (objects s) = None ->
  retrieve_one (JStr u) (JStr d) s =
  (Ok (error_resp 404 ("Document " ++ d ++ " not found")), s).
Proof.
  intros Hf Hb Hc. destruct s as [b o f]; simpl in *; subst.
  unfold retrieve_one. unfold_M. cbv [py_str]. simpl. rw_simpl Hc. reflexivity.
Qed.

Lemma retrieve_one_found u d s xs md :
  failing s = [] -> bucket_present s = true ->
  assoc (chunks_blob_name u d) (objects s) = Some (Some (JArr xs)) ->
  (assoc (metadata_blob_name u d) (objects s) = None /\ md = [] \/
   exists m, assoc (metadata_blob_name u d) (objects s) = Some (Some m) /\ md = [m]) ->
  retrieve_one (JStr u) (JStr d) s = (Ok (retrieve_ok xs md), s).
Proof.
  intros Hf Hb Hc Hm. destruct s as [b o f]; simpl in *; subst.
  unfold retrieve_one. unfold_M. cbv [py_str]. simpl. rw_simpl Hc.
  destruct Hm as [[Hm ->] | [m [Hm ->]]]; rw_simpl Hm; reflexivity.
Qed.

Lemma retrieve_one_corrupt_chunks u d s :
  failing s = [] -> bucket_present s = true ->
  assoc (chunks_blob_name u d) (objects s) = Some None ->
  exists e, retrieve_one (JStr u) (JStr d) s = (Raise e, s).
Proof.
  intros Hf Hb Hc. destruct s as [b o f]; simpl in *; subst.
  unfold retrieve_one. unfold_M. cbv [py_str]. simpl. rw_simpl Hc. eexists. reflexivity.
Qed.

Lemma retrieve_one_corrupt_metadata u d s xs :
  failing s = [] -> bucket_present s = true ->
  assoc (chunks_blob_name u d) (objects s) = Some (Some (JArr xs)) ->
  assoc (metadata_blob_name u d) (objects s) = Some None ->
  exists e, retrieve_one (JStr u) (JStr d) s = (Raise e, s).
Proof.
  intros Hf Hb Hc Hm. destruct s as [b o f]; simpl in *; subst.
  unfold retrieve_one. unfold_M. cbv [py_str]. simpl. rw_simpl Hc. rw_simpl Hm.
  eexists. reflexivity.
Qed.

Lemma first_missing_obj kvs fs :
  first_missing (JObj kvs) fs = Ok (find (missing_in kvs) fs).
Proof.
  induction fs as [|f fs IH]; simpl; [reflexivity|].
  unfold missing_in. destruct (assoc f kvs); [exact IH|reflexivity].
Qed.

Lemma find_missing_none kvs fs :
  (forall f, In f fs -> assoc f kvs <> None) -> find (missing_in kvs) fs = None.
Proof.
  intros H. induction fs as [|f fs IH]; simpl; [reflexivity|].
  unfold missing_in at 1. destruct (assoc f kvs) eqn:E.
  - apply IH. intros g Hg. apply H. right; exact Hg.
  - exfalso. apply (H f); [left; reflexivity|exact E].
Qed.

Lemma find_missing_some kvs fs :
  (exists f, In f fs /\ assoc f kvs = None) ->
  exists g, find (missing_in kvs) fs = Some g /\ In g fs /\ assoc g kvs = None.
Proof.
  intros Hex. destruct (find (missing_in kvs) fs) as [g|] eqn:E.
  - exists g. apply find_some in E. destruct E as [Hin Hm].
    unfold missing_in in Hm. destruct (assoc g kvs); [discriminate|auto].
  - exfalso. destruct Hex as [f [Hin Hn]].
    pose proof (find_none _ _ E f Hin) as Hf. unfold missing_in in Hf.
    rewrite Hn in Hf. discriminate.
Qed.

Lemma find_missing_first kvs fs g :
  find (missing_in kvs) fs = Some g ->
  exists pre post, fs = (pre ++ g :: post)%list /\ assoc g kvs = None /\
                   forall h, In h pre -> assoc h kvs <> None.
Proof.
  induction fs as [|f fs IH]; simpl; [discriminate|].
  unfold missing_in at 1. destruct (assoc f kvs) as [v|] eqn:E; intros H.
  - destruct (IH H) as [pre [post [-> [Hg Hpre]]]].
    exists (f :: pre), post. split; [reflexivity|split; [exact Hg|]].
    intros h [<-|Hh]; [rewrite E; discriminate|auto].
  - injection H as <-. exists [], fs. split; [reflexivity|split; [exact E|]].
    intros h [].
Qed.

Lemma save_missing_field kvs s f :
  kvs <> [] -> find (missing_in kvs) required_fields = Some f ->
  save_embeddings (Some (JObj kvs)) s =
  (Ok (error_resp 400 ("Missing required field: " ++ f)), s).
Proof.
  intros Hne Hf. destruct kvs as [|p kvs]; [congruence|].
  unfold save_embeddings. rewrite first_missing_obj, Hf. reflexivity.
Qed.

Lemma save_fields_present kvs s u d fn c m :
  kvs <> [] ->
  assoc "userId" kvs = Some u -> assoc "documentId" kvs = Some d ->
  assoc "fileName" kvs = Some fn -> assoc "chunks" kvs = Some c ->
  assoc "metadata" kvs = Some m ->
  save_embeddings (Some (JObj kvs)) s =
  try_catch (match c with
             | JArr [] => ret (error_resp 400 "chunks array is empty")
             | JArr xs => save_to_storage u d fn xs m
             | _ => ret (error_resp 400 "chunks must be an array")
             end) (fun e => ret (error_resp 500 e)) s.
Proof.
  intros Hne Hu Hd Hfn Hc Hm.
  assert (Hnone : find (missing_in kvs) required_fields = None).
  { apply find_missing_none. intros f Hf.
    simpl in Hf; repeat destruct Hf as [<-|Hf]; congruence. }
  destruct kvs as [|p kvs]; [congruence|].
  unfold save_embeddings. rewrite first_missing_obj, Hnone.
  unfold py_getitem. rewrite Hu, Hd, Hfn, Hc, Hm. reflexivity.
Qed.

Lemma try_catch_500 (m : M response) s r s' :
  try_catch m (fun e => ret (error_resp 500 e)) s = (Ok r, s') ->
  resp_status r = 200%Z -> m s = (Ok r, s').
Proof.
  unfold try_catch. destruct (m s) as [[a|e] s1]; intros H Hst; [exact H|].
  injection H as <- <-. discriminate.
Qed.

Ltac bad_status H Hst :=
  injection H as <- <-; simpl in Hst; discriminate.

Lemma save_success_path rj s r s' :
  save_embeddings (Some rj) s = (Ok r, s') -> resp_status r = 200%Z ->
  exists u d fn xs m,
    py_getitem rj "userId" = Ok u /\ py_getitem rj "documentId" = Ok d /\
    py_getitem rj "fileName" = Ok fn /\ py_getitem rj "chunks" = Ok (JArr xs) /\
    xs <> [] /\ py_getitem rj "metadata" = Ok m /\
    save_to_storage u d fn xs m s = (Ok r, s').
Proof.
  intros H Hst. unfold save_embeddings in H.
  apply try_catch_500 in H; [|exact Hst]. cbv beta iota in H.
  destruct (negb (truthy rj)); [bad_status H Hst|].
  cbv [bind lift ret throw] in H.
  destruct (first_missing rj required_fields) as [[f|]|e]; cbv beta iota in H;
    [bad_status H Hst| |discriminate].
  destruct (py_getitem rj "userId") as [u|e] eqn:Eu; cbv beta iota in H; [|discriminate].
  destruct (py_getitem rj "documentId") as [d|e] eqn:Ed; cbv beta iota in H; [|discriminate].
  destruct (py_getitem rj "fileName") as [fn|e] eqn:Efn; cbv beta iota in H; [|discriminate].
  destruct (py_getitem rj "chunks") as [c|e] eqn:Ec; cbv beta iota in H; [|discriminate].
  destruct (py_getitem rj "metadata") as [m|e] eqn:Em; cbv beta iota in H; [|discriminate].
  destruct c as [|b|z|str|xs|kvs]; try bad_status H Hst.
  destruct xs as [|x xs]; [bad_status H Hst|].
  exists u, d, fn, (x :: xs), m. repeat split; auto. discriminate.
Qed.

(** The request part of Save never touches the store: it either answers
    with a fixed response or hands over to [save_to_storage]. *)
Lemma save_cases rj :
  (exists r, forall s, save_embeddings (Some rj) s = (Ok r, s)) \/
  (exists u d fn xs m, forall s, save_embeddings (Some rj) s =
     try_catch (save_to_storage u d fn xs m) (fun e => ret (error_resp 500 e)) s).
Proof.
  unfold save_embeddings. cbv beta iota.
  destruct (negb (truthy rj)); [left; eexists; intros s; reflexivity|].
  cbv [bind lift ret throw].
  destruct (first_missing rj required_fields) as [[f|]|e];
    [left; eexists; intros s; reflexivity| |left; eexists; intros s; reflexivity].
  destruct (py_getitem rj "userId") as [u|e]; [|left; eexists; intros s; reflexivity].
  destruct (py_getitem rj "documentId") as [d|e]; [|left; eexists; intros s; reflexivity].
  destruct (py_getitem rj "fileName") as [fn|e]; [|left; eexists; intros s; reflexivity].
  destruct (py_getitem rj "chunks") as [c|e]; [|left; eexists; intros s; reflexivity].
  destruct (py_getitem rj "metadata") as [m|e]; [|left; eexists; intros s; reflexivity].
  destruct c as [|b|z|str|xs|kvs]; try (left; eexists; intros s; reflexivity).
  destruct xs as [|x xs]; [left; eexists; intros s; reflexivity|].
  right. exists u, d, fn, (x :: xs), m. intros s. reflexivity.
Qed.

Lemma bucket_step_objects s : objects (bucket_step s) = objects s.
Proof.
  unfold bucket_step. destruct (existsb _ _); [reflexivity|].
  destruct (bucket_present s); [reflexivity|]. destruct (existsb _ _); reflexivity.
Qed.

Lemma bucket_step_failing s : failing (bucket_step s) = failing s.
Proof.
  unfold bucket_step. destruct (existsb _ _); [reflexivity|].
  destruct (bucket_present s); [reflexivity|]. destruct (existsb _ _); reflexivity.
Qed.



(** ** Read-only computations *)

Section ReadOnly.

Lemma ro_ret {A : Type} (a : A) : read_only (ret a).
Proof. intros s. reflexivity. Qed.

Lemma ro_throw {A : Type} e : read_only (@throw A e).
Proof. intros s. reflexivity. Qed.

Lemma ro_lift {A : Type} (o : outcome A) : read_only (lift o).
Proof. destruct o; intros s; reflexivity. Qed.

Lemma ro_bind {A B : Type} (m : M A) (k : A -> M B) :
  read_only m -> (forall a, read_only (k a)) -> read_only (bind m k).
Proof.
  intros Hm Hk s. unfold bind. specialize (Hm s).
  destruct (m s) as [[a|e] s'] eqn:E; simpl in Hm; subst s'; [apply Hk|reflexivity].
Qed.

Lemma ro_try {A : Type} (m : M A) h :
  read_only m -> (forall e, read_only (h e)) -> read_only (try_catch m h).
Proof.
  intros Hm Hh s. unfold try_catch. specialize (Hm s).
  destruct (m s) as [[a|e] s'] eqn:E; simpl in Hm; subst s'; [reflexivity|apply Hh].
Qed.

Lemma ro_guard o : read_only (guard o).
Proof. intros s. unfold guard. destruct (existsb _ _); reflexivity. Qed.

Lemma ro_state {A : Type} (f : store -> outcome A) : read_only (fun s => (f s, s)).
Proof. intros s. reflexivity. Qed.

Lemma ro_download k : read_only (download k).
Proof.
  apply ro_bind; [apply ro_guard|]. intros _ s.
  destruct (bucket_present s), (assoc k (objects s)); reflexivity.
Qed.

Lemma ro_list_blobs p : read_only (list_blobs p).
Proof.
  apply ro_bind; [apply ro_guard|]. intros _ s. destruct (bucket_present s); reflexivity.
Qed.

Lemma ro_json_loads p : read_only (json_loads p).
Proof. destruct p; [apply ro_ret|apply ro_throw]. Qed.

End ReadOnly.

Ltac ro_solve :=
  repeat match goal with
  | |- read_only (bind _ _) => apply ro_bind; [|intros ?; cbv beta zeta]
  | |- read_only (try_catch _ _) => apply ro_try; [|intros ?; cbv beta zeta]
  | |- read_only (ret _) => apply ro_ret
  | |- read_only (throw _) => apply ro_throw
  | |- read_only (lift _) => apply ro_lift
  | |- read_only (guard _) => apply ro_guard
  | |- read_only (download _) => apply ro_download
  | |- read_only (list_blobs _) => apply ro_list_blobs
  | |- read_only (json_loads _) => apply ro_json_loads
  | |- read_only bucket_exists => apply ro_bind; [apply ro_guard|intros ?; apply ro_state]
  | |- read_only (blob_exists _) => apply ro_bind; [apply ro_guard|intros ?; apply ro_state]
  | |- read_only (if ?b then _ else _) => destruct b
  | |- read_only (match ?x with _ => _ end) => destruct x
  end.

Lemma ro_collect G ac am : read_only (collect G ac am).
Proof.
  revert ac am. induction G as [|[d files] G IH]; intros ac am; cbn [collect]; ro_solve.
  all: apply IH.
Qed.

(** ** Claims *)

(** C1: on a healthy store, Save followed by a single-document Retrieve with
    the same (userId, documentId) succeeds and returns exactly the saved
    chunks, in order, and the one-element metadata list [metadata]. *)
Theorem save_then_retrieve_roundtrip s u d fn chunks m :
  failing s = [] -> chunks <> [] -> d <> "" ->
  exists r1 s1 r2,
    save_embeddings (Some (save_request u d fn chunks m)) s = (Ok r1, s1) /\
    resp_status r1 = 200%Z /\
    retrieve_embeddings (Some (doc_request u d)) s1 = (Ok r2, s1) /\
    resp_status r2 = 200%Z /\
    resp_field r2 "chunks" = Some (JArr chunks) /\
    resp_field r2 "metadata" = Some (JArr [m]).
Proof.
  intros Hf Hc Hd.
  rewrite save_request_valid by exact Hc. unfold try_catch at 1.
  rewrite save_to_storage_healthy by exact Hf.
  do 3 eexists. split; [reflexivity|]. split; [reflexivity|].
  rewrite retrieve_doc_request by (simpl; auto). simpl bucket_present.
  unfold try_catch.
  rewrite (retrieve_one_found _ _ _ chunks [m]); simpl.
  - split; [reflexivity|]. repeat split.
  - reflexivity.
  - reflexivity.
  - rewrite assoc_dict_set_other by apply chunks_metadata_names_differ.
    apply assoc_dict_set_same.
  - right. exists m. split; [apply assoc_dict_set_same|reflexivity].
Qed.

Lemma save_then_retrieve_roundtrip_witness :
  exists r1 s1 r2,
    save_embeddings (Some (save_request "user_123" "doc_456" "resume.pdf" [chunk0] meta0))
      empty_store = (Ok r1, s1) /\
    resp_status r1 = 200%Z /\
    retrieve_embeddings (Some (doc_request "user_123" "doc_456")) s1 = (Ok r2, s1) /\
    resp_status r2 = 200%Z /\
    resp_field r2 "chunks" = Some (JArr [chunk0]) /\
    resp_field r2 "metadata" = Some (JArr [meta0]).
Proof.
  apply (save_then_retrieve_roundtrip empty_store "user_123" "doc_456" "resume.pdf"
           [chunk0] meta0); [reflexivity|discriminate|discriminate].
Defined.

(** C2 (counterexample): an empty-string [userId] passes validation and the
    Save succeeds with HTTP 200, writing under [users//documents/...]. *)
Lemma save_accepts_empty_user_id :
  fst (save_embeddings (Some (save_request "" "doc_456" "resume.pdf" [chunk0] meta0))
         empty_store)
  = Ok (save_ok (JStr "doc_456") 1
          "gs://myformsnapper-embeddings/users//documents/doc_456/chunks.json"
          "resume.pdf").
Proof. reflexivity. Qed.

(** C2 (amended): Save answers InvalidInput (HTTP 400) without any store
    access (the store is returned unchanged and the answer does not depend
    on it) when the body is absent or empty, when one of the five fields
    is absent from the request object (the error names the first absent
    one in the order userId, documentId, fileName, chunks, metadata), when
    [chunks] is not an array, or when [chunks] is empty; when
    all five fields are present and [chunks] is a non-empty array, the
    response is not a 400. Presence is all that is checked for the other
    fields. *)
Theorem save_validation kvs s :
  save_embeddings None s = (Ok (error_resp 400 "No JSON data provided"), s) /\
  save_embeddings (Some (JObj [])) s = (Ok (error_resp 400 "No JSON data provided"), s) /\
  (kvs <> [] -> (exists f, In f required_fields /\ assoc f kvs = None) ->
   exists f pre post,
     required_fields = (pre ++ f :: post)%list /\ assoc f kvs = None /\
     (forall g, In g pre -> assoc g kvs <> None) /\
     save_embeddings (Some (JObj kvs)) s =
     (Ok (error_resp 400 ("Missing required field: " ++ f)), s)) /\
  ((forall f, In f required_fields -> assoc f kvs <> None) ->
   (forall c, assoc "chunks" kvs = Some c -> (forall xs, c <> JArr xs) ->
      save_embeddings (Some (JObj kvs)) s =
      (Ok (error_resp 400 "chunks must be an array"), s)) /\
   (assoc "chunks" kvs = Some (JArr []) ->
      save_embeddings (Some (JObj kvs)) s =
      (Ok (error_resp 400 "chunks array is empty"), s)) /\
   (forall x xs, assoc "chunks" kvs = Some (JArr (x :: xs)) ->
      exists r s', save_embeddings (Some (JObj kvs)) s = (Ok r, s') /\
                   resp_status r <> 400%Z)).
Proof.
  split; [reflexivity|]. split; [reflexivity|]. split.
  - intros Hne Hex. destruct (find_missing_some kvs required_fields Hex) as [g [Hg _]].
    destruct (find_missing_first kvs required_fields g Hg) as [pre [post [Hsplit [Hn Hpre]]]].
    exists g, pre, post. split; [exact Hsplit|split; [exact Hn|split; [exact Hpre|]]].
    apply save_missing_field; auto.
  - intros Hall.
    assert (Hne : kvs <> []).
    { intros ->. apply (Hall "userId"); [left; reflexivity|reflexivity]. }
    assert (Hget : forall f, In f required_fields -> exists v, assoc f kvs = Some v).
    { intros f Hf. specialize (Hall f Hf). destruct (assoc f kvs); [eauto|congruence]. }
    destruct (Hget "userId") as [u Hu]; [simpl; tauto|].
    destruct (Hget "documentId") as [d Hd]; [simpl; tauto|].
    destruct (Hget "fileName") as [fn Hfn]; [simpl; tauto|].
    destruct (Hget "chunks") as [c Hc]; [simpl; tauto|].
    destruct (Hget "metadata") as [m Hm]; [simpl; tauto|].
    rewrite (save_fields_present kvs s u d fn c m Hne Hu Hd Hfn Hc Hm).
    split; [|split].
    + intros c' Hc' Hnot. rewrite Hc in Hc'. injection Hc' as <-.
      destruct c as [|b|z|str|xs|kvs']; try reflexivity.
      exfalso. exact (Hnot xs eq_refl).
    + intros Hc'. rewrite Hc in Hc'. injection Hc' as ->. reflexivity.
    + intros x xs Hc'. rewrite Hc in Hc'. injection Hc' as ->.
      unfold try_catch. rewrite save_to_storage_spec. cbv zeta.
      destruct (upload _ _ (bucket_step s)) as [[] s2].
      * destruct (upload _ _ s2) as [[] s3]; do 2 eexists; split; try reflexivity;
          simpl; discriminate.
      * do 2 eexists; split; [reflexivity|simpl; discriminate].
Qed.

(** C3: a Save request object whose [chunks] is the empty array is answered
    with InvalidInput (HTTP 400) and leaves the store exactly as it was. *)
Theorem save_empty_chunks_no_write kvs s :
  assoc "chunks" kvs = Some (JArr []) ->
  exists msg, save_embeddings (Some (JObj kvs)) s = (Ok (error_resp 400 msg), s).
Proof.
  intros Hc.
  assert (Hne : kvs <> []) by (intros ->; discriminate).
  destruct (find (missing_in kvs) required_fields) as [f|] eqn:Ef.
  - exists ("Missing required field: " ++ f). apply save_missing_field; assumption.
  - assert (Hget : forall f, In f required_fields -> exists v, assoc f kvs = Some v).
    { intros f Hf. pose proof (find_none _ _ Ef f Hf) as Hm. unfold missing_in in Hm.
      destruct (assoc f kvs); [eauto|discriminate]. }
    destruct (Hget "userId") as [u Hu]; [simpl; tauto|].
    destruct (Hget "documentId") as [d Hd]; [simpl; tauto|].
    destruct (Hget "fileName") as [fn Hfn]; [simpl; tauto|].
    destruct (Hget "metadata") as [m Hm]; [simpl; tauto|].
    rewrite (save_fields_present kvs s u d fn (JArr []) m Hne Hu Hd Hfn Hc Hm).
    eexists. reflexivity.
Qed.

Lemma save_empty_chunks_no_write_witness :
  assoc "chunks" (match save_request "user_123" "doc_456" "resume.pdf" [] meta0 with
                  | JObj kvs => kvs | _ => [] end) = Some (JArr []) /\
  exists msg, save_embeddings (Some (save_request "user_123" "doc_456" "resume.pdf" [] meta0))
                empty_store = (Ok (error_resp 400 msg), empty_store).
Proof.
  split; [reflexivity|].
  exact (save_empty_chunks_no_write
           [("userId", JStr "user_123"); ("documentId", JStr "doc_456");
            ("fileName", JStr "resume.pdf"); ("chunks", JArr []); ("metadata", meta0)]
           empty_store eq_refl).
Defined.

(** C4 (counterexample): a single-document Retrieve succeeds with an empty
    result when the bucket does not exist, although [chunks.json] is then
    absent; and a [chunks.json] holding text that is not JSON makes the
    Retrieve fail with HTTP 500, not succeed. *)
Lemma retrieve_one_not_404_without_bucket_or_on_corrupt_chunks :
  retrieve_embeddings (Some (doc_request "user_123" "doc_456")) empty_store
  = (Ok no_documents, empty_store) /\
  exists e,
  fst (retrieve_embeddings (Some (doc_request "user_123" "doc_456"))
         (mkStore true [(chunks_blob_name "user_123" "doc_456", None)] []))
  = Ok (error_resp 500 e).
Proof. split; [reflexivity|eexists; reflexivity]. Qed.

(** C4 (amended): on a healthy store, a single-document Retrieve (non-empty
    [documentId]) succeeds with an empty result when the bucket does not
    exist; when it exists, it answers NotFound (HTTP 404) if [chunks.json]
    is absent; if [chunks.json] holds a JSON array it succeeds when
    [metadata.json] is absent or holds JSON, with [documentsCount] the
    length of the metadata list: 0 without [metadata.json], 1 with it; a
    [chunks.json] that is not JSON, or a [metadata.json] that is not JSON
    beside a valid [chunks.json], makes it fail with HTTP 500.  The store
    is not modified. *)
Theorem retrieve_one_outcomes u d s :
  failing s = [] -> d <> "" ->
  (bucket_present s = false ->
   retrieve_embeddings (Some (doc_request u d)) s = (Ok no_documents, s)) /\
  (bucket_present s = true ->
   (assoc (chunks_blob_name u d) (objects s) = None ->
    retrieve_embeddings (Some (doc_request u d)) s =
    (Ok (error_resp 404 ("Document " ++ d ++ " not found")), s)) /\
   (assoc (chunks_blob_name u d) (objects s) = Some None ->
    exists e, retrieve_embeddings (Some (doc_request u d)) s = (Ok (error_resp 500 e), s)) /\
   (forall xs, assoc (chunks_blob_name u d) (objects s) = Some (Some (JArr xs)) ->
    (assoc (metadata_blob_name u d) (objects s) = None ->
     retrieve_embeddings (Some (doc_request u d)) s = (Ok (retrieve_ok xs []), s) /\
     resp_field (retrieve_ok xs []) "documentsCount" = Some (JNum 0)) /\
    (forall m, assoc (metadata_blob_name u d) (objects s) = Some (Some m) ->
     retrieve_embeddings (Some (doc_request u d)) s = (Ok (retrieve_ok xs [m]), s) /\
     resp_field (retrieve_ok xs [m]) "documentsCount" = Some (JNum 1)) /\
    (assoc (metadata_blob_name u d) (objects s) = Some None ->
     exists e, retrieve_embeddings (Some (doc_request u d)) s = (Ok (error_resp 500 e), s)))).
Proof.
  intros Hf Hd. rewrite (retrieve_doc_request u d s Hd Hf).
  split; [intros Hb; rewrite Hb; reflexivity|].
  intros Hb. rewrite Hb. unfold try_catch. split; [|split].
  - intros Hc. rewrite retrieve_one_missing; auto.
  - intros Hc. destruct (retrieve_one_corrupt_chunks u d s Hf Hb Hc) as [e He].
    rewrite He. eexists. reflexivity.
  - intros xs Hc. split; [|split].
    + intros Hm. rewrite (retrieve_one_found u d s xs []); auto.
    + intros m Hm. rewrite (retrieve_one_found u d s xs [m]); eauto.
    + intros Hm. destruct (retrieve_one_corrupt_metadata u d s xs Hf Hb Hc Hm) as [e He].
      rewrite He. eexists. reflexivity.
Qed.

Lemma retrieve_one_outcomes_witness :
  let c := chunks_blob_name "u" "d" in
  let mn := metadata_blob_name "u" "d" in
  let other := (doc_key "u" "e" "chunks.json", Some (JArr [])) in
  retrieve_embeddings (Some (doc_request "u" "d")) empty_store = (Ok no_documents, empty_store) /\
  retrieve_embeddings (Some (doc_request "u" "d")) (mkStore true [other] []) =
    (Ok (error_resp 404 ("Document " ++ "d" ++ " not found")), mkStore true [other] []) /\
  (exists e, retrieve_embeddings (Some (doc_request "u" "d")) (mkStore true [(c, None)] []) =
             (Ok (error_resp 500 e), mkStore true [(c, None)] [])) /\
  retrieve_embeddings (Some (doc_request "u" "d"))
    (mkStore true [other; (c, Some (JArr [chunk0]))] []) =
    (Ok (retrieve_ok [chunk0] []), mkStore true [other; (c, Some (JArr [chunk0]))] []) /\
  retrieve_embeddings (Some (doc_request "u" "d"))
    (mkStore true [(mn, Some meta0); (c, Some (JArr [chunk0]))] []) =
    (Ok (retrieve_ok [chunk0] [meta0]), mkStore true [(mn, Some meta0); (c, Some (JArr [chunk0]))] []) /\
  (exists e, retrieve_embeddings (Some (doc_request "u" "d"))
               (mkStore true [(c, Some (JArr [chunk0])); (mn, None)] []) =
             (Ok (error_resp 500 e), mkStore true [(c, Some (JArr [chunk0])); (mn, None)] [])).
Proof.
  intros c mn other.
  assert (Hd : "d" <> "") by discriminate.
  split; [exact (proj1 (retrieve_one_outcomes "u" "d" empty_store eq_refl Hd) eq_refl)|].
  split.
  { destruct (retrieve_one_outcomes "u" "d" (mkStore true [other] []) eq_refl Hd) as [_ HB].
    destruct (HB eq_refl) as [H404 _]. apply H404. vm_compute. reflexivity. }
  split.
  { destruct (retrieve_one_outcomes "u" "d" (mkStore true [(c, None)] []) eq_refl Hd) as [_ HB].
    destruct (HB eq_refl) as [_ [H500 _]]. apply H500. vm_compute. reflexivity. }
  split.
  { destruct (retrieve_one_outcomes "u" "d" (mkStore true [other; (c, Some (JArr [chunk0]))] [])
                eq_refl Hd) as [_ HB].
    destruct (HB eq_refl) as [_ [_ Hxs]].
    destruct (Hxs [chunk0]) as [H0 _]; [vm_compute; reflexivity|].
    apply H0. vm_compute. reflexivity. }
  split.
  { destruct (retrieve_one_outcomes "u" "d"
                (mkStore true [(mn, Some meta0); (c, Some (JArr [chunk0]))] []) eq_refl Hd)
      as [_ HB].
    destruct (HB eq_refl) as [_ [_ Hxs]].
    destruct (Hxs [chunk0]) as [_ [H1 _]]; [vm_compute; reflexivity|].
    apply (H1 meta0). vm_compute. reflexivity. }
  { destruct (retrieve_one_outcomes "u" "d"
                (mkStore true [(c, Some (JArr [chunk0])); (mn, None)] []) eq_refl Hd) as [_ HB].
    destruct (HB eq_refl) as [_ [_ Hxs]].
    destruct (Hxs [chunk0]) as [_ [_ Hbad]]; [vm_compute; reflexivity|].
    apply Hbad. vm_compute. reflexivity. }
Defined.

(** C8: a Save answered with HTTP 200 wrote exactly two objects over the
    previous store: the chunks array at
    [users/{userId}/documents/{documentId}/chunks.json] and the metadata at
    [.../metadata.json], each overwriting any object there, and reports
    [chunksSaved] = the number of chunks and [storageUrl] = the [gs://]
    locator of the chunks object. *)
Theorem save_writes_two_objects rj s r s' :
  save_embeddings (Some rj) s = (Ok r, s') -> resp_status r = 200%Z ->
  exists u d fn xs m,
    py_getitem rj "userId" = Ok u /\ py_getitem rj "documentId" = Ok d /\
    py_getitem rj "fileName" = Ok fn /\ py_getitem rj "chunks" = Ok (JArr xs) /\
    py_getitem rj "metadata" = Ok m /\
    s' = mkStore true
           (dict_set (metadata_blob_name (py_str u) (py_str d)) (Some m)
              (dict_set (chunks_blob_name (py_str u) (py_str d)) (Some (JArr xs))
                 (objects s)))
           (failing s) /\
    resp_field r "chunksSaved" = Some (JNum (Z.of_nat (length xs))) /\
    resp_field r "storageUrl" =
      Some (JStr ("gs://" ++ BUCKET_NAME ++ "/" ++ chunks_blob_name (py_str u) (py_str d))).
Proof.
  intros H Hst.
  destruct (save_success_path rj s r s' H Hst) as (u & d & fn & xs & m & Hu & Hd & Hfn & Hc & Hne & Hm & Hs).
  exists u, d, fn, xs, m. do 5 (split; [assumption|]).
  rewrite save_to_storage_spec in Hs. cbv zeta in Hs.
  rewrite upload_spec, bucket_step_failing in Hs.
  destruct (existsb _ (failing s)) eqn:E1; [discriminate|].
  destruct (bucket_present (bucket_step s)) eqn:Eb; [|discriminate].
  rewrite upload_spec in Hs. unfold with_objects in Hs. simpl in Hs.
  destruct (existsb _ (failing (bucket_step s))) eqn:E2; [discriminate|].
  rewrite Eb in Hs. injection Hs as <- <-.
  rewrite bucket_step_objects, bucket_step_failing.
  split; [reflexivity|]. split; reflexivity.
Qed.

Lemma save_writes_two_objects_witness :
  exists u d fn xs m,
    py_getitem (save_request "user_123" "doc_456" "resume.pdf" [chunk0] meta0) "userId" = Ok u /\
    py_getitem (save_request "user_123" "doc_456" "resume.pdf" [chunk0] meta0) "documentId" = Ok d /\
    py_getitem (save_request "user_123" "doc_456" "resume.pdf" [chunk0] meta0) "fileName" = Ok fn /\
    py_getitem (save_request "user_123" "doc_456" "resume.pdf" [chunk0] meta0) "chunks" = Ok (JArr xs) /\
    py_getitem (save_request "user_123" "doc_456" "resume.pdf" [chunk0] meta0) "metadata" = Ok m /\
    snd (save_embeddings (Some (save_request "user_123" "doc_456" "resume.pdf" [chunk0] meta0))
           empty_store) =
      mkStore true
        (dict_set (metadata_blob_name (py_str u) (py_str d)) (Some m)
           (dict_set (chunks_blob_name (py_str u) (py_str d)) (Some (JArr xs))
              (objects empty_store)))
        (failing empty_store) /\
    resp_field (save_ok (JStr "doc_456") 1
          "gs://myformsnapper-embeddings/users/user_123/documents/doc_456/chunks.json"
          "resume.pdf") "chunksSaved" = Some (JNum (Z.of_nat (length xs))) /\
    resp_field (save_ok (JStr "doc_456") 1
          "gs://myformsnapper-embeddings/users/user_123/documents/doc_456/chunks.json"
          "resume.pdf") "storageUrl" =
      Some (JStr ("gs://" ++ BUCKET_NAME ++ "/" ++ chunks_blob_name (py_str u) (py_str d))).
Proof.
  exact (save_writes_two_objects
           (save_request "user_123" "doc_456" "resume.pdf" [chunk0] meta0) empty_store
           (save_ok (JStr "doc_456") 1
              "gs://myformsnapper-embeddings/users/user_123/documents/doc_456/chunks.json"
              "resume.pdf")
           (snd (save_embeddings
                   (Some (save_request "user_123" "doc_456" "resume.pdf" [chunk0] meta0))
                   empty_store))
           eq_refl eq_refl).
Defined.




(** ** Deletion lemmas *)

Lemma assoc_in {A : Type} k (o : list (string * A)) :
  In k (map fst o) -> exists v, assoc k o = Some v.
Proof.
  induction o as [|[k' v'] t IH]; simpl; [tauto|].
  intros [<-|Hin].
  - rewrite String.eqb_refl. eauto.
  - destruct (String.eqb k k'); eauto.
Qed.

Lemma filter_compose {A : Type} (f g : A -> bool) l :
  filter f (filter g l) = filter (fun x => g x && f x) l.
Proof.
  induction l as [|x t IH]; simpl; [reflexivity|].
  destruct (g x); simpl; [destruct (f x); simpl; rewrite IH; reflexivity|exact IH].
Qed.

Lemma with_objects_same s : with_objects s (objects s) = s.
Proof. destruct s; reflexivity. Qed.

Lemma delete_blobs_spec L s :
  failing s = [] -> bucket_present s = true -> NoDup L ->
  (forall k, In k L -> In k (map fst (objects s))) ->
  delete_blobs L s =
  (Ok tt, with_objects s (filter (fun kv => negb (existsb (String.eqb (fst kv)) L))
                                 (objects s))).
Proof.
  revert s. induction L as [|k L IH]; intros s Hf Hb Hnd Hin.
  - simpl. rewrite filter_true, with_objects_same. reflexivity.
  - destruct (assoc_in k (objects s) (Hin k (or_introl eq_refl))) as [v Hv].
    simpl delete_blobs. unfold bind at 1.
    assert (Hdel : delete_blob k s = (Ok tt, with_objects s (remove_key k (objects s)))).
    { destruct s as [b o f]; simpl in *; subst.
      unfold delete_blob. unfold_M. simpl. rewrite Hv. reflexivity. }
    rewrite Hdel.
    inversion Hnd as [|? ? Hnotin Hnd']; subst.
    rewrite IH; simpl; auto.
    + unfold with_objects, remove_key. simpl. rewrite filter_compose.
      do 2 f_equal. apply filter_ext. intros [k' v']. simpl.
      rewrite (String.eqb_sym k k'). destruct (String.eqb k' k); reflexivity.
    + intros k' Hk'. unfold remove_key. rewrite in_map_iff.
      destruct (in_map_iff fst (objects s) k') as [Hm _].
      destruct (Hm (Hin k' (or_intror Hk'))) as [[k0 v0] [Heq Hin0]].
      simpl in Heq. subst k0. exists (k', v0). split; [reflexivity|].
      apply filter_In. split; [exact Hin0|]. simpl.
      destruct (String.eqb k k') eqn:E; [|reflexivity].
      apply String.eqb_eq in E. subst. contradiction.
Qed.

Lemma list_blobs_healthy p s :
  failing s = [] -> bucket_present s = true ->
  list_blobs p s = (Ok (listing p s), s).
Proof.
  intros Hf Hb. destruct s as [b o f]; simpl in *; subst.
  unfold list_blobs. unfold_M. reflexivity.
Qed.

(** Deleting every object listed under [p] leaves exactly the objects
    outside [p]. *)
Lemma delete_listing p s :
  failing s = [] -> bucket_present s = true -> NoDup (map fst (objects s)) ->
  delete_blobs (listing p s) s =
  (Ok tt, with_objects s (filter (fun kv => negb (String.prefix p (fst kv))) (objects s))).
Proof.
  intros Hf Hb Hnd. rewrite delete_blobs_spec; auto.
  - do 2 f_equal. apply filter_ext_in. intros [k v] Hkv. simpl. f_equal.
    destruct (String.prefix p k) eqn:Ep.
    + apply existsb_exists. exists k. split; [|apply String.eqb_refl].
      unfold listing. apply filter_In. split; [|exact Ep].
      apply in_map_iff. exists (k, v). auto.
    + destruct (existsb (String.eqb k) (listing p s)) eqn:E; [|reflexivity].
      apply existsb_exists in E. destruct E as [k' [Hk' Heq]].
      apply String.eqb_eq in Heq. subst k'. unfold listing in Hk'.
      apply filter_In in Hk'. destruct Hk' as [_ Hk']. congruence.
  - unfold listing. apply NoDup_filter. exact Hnd.
  - intros k Hk. unfold listing in Hk. apply filter_In in Hk. tauto.
Qed.

Lemma set_add_spec x xs :
  NoDup xs -> NoDup (set_add x xs) /\ (forall y, In y (set_add x xs) <-> In y xs \/ y = x).
Proof.
  intros Hnd. unfold set_add. destruct (existsb (String.eqb x) xs) eqn:E.
  - split; [exact Hnd|]. intros y. split; [tauto|]. intros [H| ->]; [exact H|].
    apply existsb_exists in E. destruct E as [z [Hz Heq]].
    apply String.eqb_eq in Heq. subst z. exact Hz.
  - split.
    + apply NoDup_app; [exact Hnd|constructor; [tauto|constructor]|].
      intros a Ha [-> | []]. assert (Hex : existsb (String.eqb a) xs = true).
      { apply existsb_exists. exists a. split; [exact Ha|apply String.eqb_refl]. }
      congruence.
    + intros y. rewrite in_app_iff. simpl. intuition.
Qed.

Lemma doc_set_spec acc L :
  NoDup acc ->
  NoDup (doc_set acc L) /\
  (forall x, In x (doc_set acc L) <->
             In x acc \/ exists k, In k L /\ has5 k = true /\ seg3 k = x).
Proof.
  revert acc. induction L as [|k L IH]; intros acc Hnd; cbn [doc_set].
  - split; [exact Hnd|]. intros x. split; [tauto|]. intros [H|[k [[] _]]]. exact H.
  - destruct (Nat.leb 5 (length (split_slash k))) eqn:E5.
    + destruct (set_add_spec (nth 3 (split_slash k) "") acc Hnd) as [Hnd' Hin'].
      destruct (IH _ Hnd') as [Hr Hx]. split; [exact Hr|].
      intros x. rewrite Hx, Hin'. split.
      * intros [[H|H]|[k' [Hk' Hp]]]; [tauto| |right; exists k'; split; [right; exact Hk'|exact Hp]].
        right. exists k. split; [left; reflexivity|split; [exact E5|symmetry; exact H]].
      * intros [H|[k' [[<-|Hk'] [H5 H3]]]]; [tauto| |right; exists k'; tauto].
        left. right. symmetry. exact H3.
    + destruct (IH _ Hnd) as [Hr Hx]. split; [exact Hr|].
      intros x. rewrite Hx. split.
      * intros [H|[k' [Hk' Hp]]]; [tauto|right; exists k'; split; [right; exact Hk'|exact Hp]].
      * intros [H|[k' [[<-|Hk'] [H5 H3]]]]; [tauto| |right; exists k'; tauto].
        unfold has5 in H5. congruence.
Qed.

Lemma delete_user_request u s :
  failing s = [] ->
  delete_embeddings (Some (user_request u)) s =
  if bucket_present s
  then try_catch (delete_all (JStr u)) (fun e => ret (error_resp 500 e)) s
  else (Ok nothing_to_delete, s).
Proof.
  intros Hf. destruct s as [b o f]; simpl in Hf; subst f.
  unfold delete_embeddings. unfold_M. simpl. destruct b; reflexivity.
Qed.

Lemma delete_doc_request u d s :
  d <> "" -> failing s = [] ->
  delete_embeddings (Some (doc_request u d)) s =
  if bucket_present s
  then try_catch (delete_one (JStr u) (JStr d)) (fun e => ret (error_resp 500 e)) s
  else (Ok nothing_to_delete, s).
Proof.
  intros Hd Hf. assert (Hd' : String.eqb d "" = false) by (apply String.eqb_neq; exact Hd).
  destruct s as [b o f]; simpl in Hf; subst f.
  unfold delete_embeddings. unfold_M. simpl. rewrite Hd'. destruct b; reflexivity.
Qed.

(** All-documents Delete on a healthy store: every listed object goes,
    and the count is the number of distinct 4th segments of the listed
    keys with at least 5 segments. *)
Lemma delete_all_spec u s :
  failing s = [] -> bucket_present s = true -> NoDup (map fst (objects s)) ->
  exists ds,
    NoDup ds /\
    (forall x, In x ds <-> exists k, In k (listing (user_prefix u) s) /\
                                     has5 k = true /\ seg3 k = x) /\
    delete_embeddings (Some (user_request u)) s =
    (Ok (delete_ok (length ds) ("Successfully deleted " ++ dec_of_nat (length ds)
                                ++ " documents for user " ++ u)),
     with_objects s (filter (fun kv => negb (String.prefix (user_prefix u) (fst kv)))
                            (objects s))).
Proof.
  intros Hf Hb Hnd.
  destruct (doc_set_spec [] (listing (user_prefix u) s) (NoDup_nil _)) as [Hds Hin].
  exists (doc_set [] (listing (user_prefix u) s)). split; [exact Hds|]. split.
  - intros x. rewrite Hin. simpl. tauto.
  - rewrite delete_user_request, Hb by exact Hf.
    unfold try_catch, delete_all. unfold bind at 1. simpl py_str.
    rewrite list_blobs_healthy by assumption.
    unfold bind. rewrite delete_listing by assumption. reflexivity.
Qed.

(** ** Splitting keys of the key space *)

Lemma split_slash_app a b :
  no_slash a = true -> split_slash (a ++ String "/" b) = a :: split_slash b.
Proof.
  induction a as [|c a IH]; simpl; intros H; [reflexivity|].
  apply andb_true_iff in H. destruct H as [Hc Ha].
  rewrite IH by exact Ha. apply negb_true_iff in Hc. rewrite Hc. reflexivity.
Qed.

Lemma split_slash_single a : no_slash a = true -> split_slash a = [a].
Proof.
  induction a as [|c a IH]; simpl; intros H; [reflexivity|].
  apply andb_true_iff in H. destruct H as [Hc Ha].
  rewrite IH by exact Ha. apply negb_true_iff in Hc. rewrite Hc. reflexivity.
Qed.

Lemma split_doc_key u d f :
  no_slash u = true -> no_slash d = true -> no_slash f = true ->
  split_slash (doc_key u d f) = ["users"; u; "documents"; d; f].
Proof.
  intros Hu Hd Hf.
  change (doc_key u d f) with
    ("users" ++ String "/" (u ++ String "/" ("documents" ++ String "/"
                                              (d ++ String "/" f)))).
  rewrite split_slash_app by reflexivity. rewrite split_slash_app by exact Hu.
  rewrite split_slash_app by reflexivity. rewrite split_slash_app by exact Hd.
  rewrite split_slash_single by exact Hf. reflexivity.
Qed.

Lemma doc_key_inj u d f d' f' :
  no_slash u = true -> no_slash d = true -> no_slash f = true ->
  no_slash d' = true -> no_slash f' = true ->
  doc_key u d f = doc_key u d' f' -> d = d' /\ f = f'.
Proof.
  intros Hu Hd Hf Hd' Hf' H.
  assert (Hs : split_slash (doc_key u d f) = split_slash (doc_key u d' f')) by (rewrite H; reflexivity).
  rewrite !split_doc_key in Hs by assumption. injection Hs as -> ->. auto.
Qed.

Lemma str_app_assoc (a b c : string) : (a ++ b) ++ c = a ++ (b ++ c).
Proof. induction a as [|x a IH]; simpl; [reflexivity|now rewrite IH]. Qed.

Lemma prefix_app p t : String.prefix p (p ++ t) = true.
Proof.
  induction p as [|c p IH]; simpl; [destruct t; reflexivity|].
  destruct (ascii_dec c c); [exact IH|congruence].
Qed.

Lemma doc_key_prefix u d f : String.prefix (user_prefix u) (doc_key u d f) = true.
Proof.
  replace (doc_key u d f) with (user_prefix u ++ (d ++ "/" ++ f)); [apply prefix_app|].
  unfold doc_key, user_prefix. simpl. rewrite str_app_assoc. reflexivity.
Qed.

(** C6 (counterexample): an object [users/u/documents/x] of the listing has
    4th segment [x] but only 4 segments; it is deleted and not counted, so
    [documentsDeleted] is 0 while one distinct 4th segment is listed. *)
Lemma delete_all_skips_short_key :
  fst (delete_embeddings (Some (user_request "u"))
         (mkStore true [("users/u/documents/x", Some JNull)] []))
  = Ok (delete_ok 0 "Successfully deleted 0 documents for user u") /\
  listing (user_prefix "u") (mkStore true [("users/u/documents/x", Some JNull)] [])
  = ["users/u/documents/x"] /\
  seg3 "users/u/documents/x" = "x".
Proof. repeat split; reflexivity. Qed.

(** C6 (amended): on a healthy store whose bucket exists, all-documents
    Delete removes every object listed under [users/{userId}/documents/]
    and reports [documentsDeleted] = the number of distinct 4th segments
    among the listed keys that have at least 5 segments; when the listed
    keys follow the key space [users/{u}/documents/{d}/{f}] (slash-free
    segments), that is the number of distinct documents [d]. *)
Theorem delete_all_counts_documents u s :
  failing s = [] -> bucket_present s = true -> NoDup (map fst (objects s)) ->
  exists ds,
    NoDup ds /\
    (forall x, In x ds <-> exists k, In k (listing (user_prefix u) s) /\
                                     has5 k = true /\ seg3 k = x) /\
    (key_space_ok u s ->
     forall x, In x ds <-> exists f, no_slash x = true /\ no_slash f = true /\
                                     In (doc_key u x f) (listing (user_prefix u) s)) /\
    delete_embeddings (Some (user_request u)) s =
    (Ok (delete_ok (length ds) ("Successfully deleted " ++ dec_of_nat (length ds)
                                ++ " documents for user " ++ u)),
     with_objects s (filter (fun kv => negb (String.prefix (user_prefix u) (fst kv)))
                            (objects s))).
Proof.
  intros Hf Hb Hnd.
  destruct (delete_all_spec u s Hf Hb Hnd) as [ds [Hds [Hin Hdel]]].
  exists ds. split; [exact Hds|]. split; [exact Hin|]. split; [|exact Hdel].
  intros [Hu Hks] x. rewrite Hin. split.
  - intros [k [Hk [H5 H3]]].
    destruct (Hks k Hk) as [d [f [-> [Hd Hf']]]].
    unfold seg3 in H3. rewrite split_doc_key in H3 by assumption. simpl in H3. subst d.
    exists f. auto.
  - intros [f [Hx [Hf' Hk]]]. exists (doc_key u x f). split; [exact Hk|].
    unfold has5, seg3. rewrite split_doc_key by assumption. auto.
Qed.

Lemma delete_all_counts_documents_witness :
  let s := mkStore true [(doc_key "u" "d1" "chunks.json", Some (JArr [chunk0]));
                         (doc_key "u" "d1" "metadata.json", Some meta0);
                         (doc_key "u" "d2" "chunks.json", Some (JArr []));
                         (doc_key "v" "d3" "chunks.json", Some (JArr []))] [] in
  (exists ds,
    NoDup ds /\
    (forall x, In x ds <-> exists k, In k (listing (user_prefix "u") s) /\
                                     has5 k = true /\ seg3 k = x) /\
    (key_space_ok "u" s ->
     forall x, In x ds <-> exists f, no_slash x = true /\ no_slash f = true /\
                                     In (doc_key "u" x f) (listing (user_prefix "u") s)) /\
    delete_embeddings (Some (user_request "u")) s =
    (Ok (delete_ok (length ds) ("Successfully deleted " ++ dec_of_nat (length ds)
                                ++ " documents for user " ++ "u")),
     with_objects s (filter (fun kv => negb (String.prefix (user_prefix "u") (fst kv)))
                            (objects s)))) /\
  delete_embeddings (Some (user_request "u")) s =
  (Ok (delete_ok 2 "Successfully deleted 2 documents for user u"),
   mkStore true [(doc_key "v" "d3" "chunks.json", Some (JArr []))] []).
Proof.
  intros s.
  assert (Hnd : NoDup (map fst (objects s))).
  { cbv [s objects map fst doc_key].
    repeat constructor; simpl; intuition discriminate. }
  split; [|vm_compute; reflexivity].
  exact (delete_all_counts_documents "u" s eq_refl eq_refl Hnd).
Defined.

(** C7: on a healthy store, a Delete of a specific (non-empty) [documentId]
    answers NotFound (HTTP 404) when nothing is listed under
    [users/{userId}/documents/{documentId}/], and otherwise removes every
    listed object and reports [documentsDeleted] = 1; without a bucket,
    both Delete modes succeed with [documentsDeleted] = 0. *)
Theorem delete_one_outcomes u d s :
  failing s = [] -> d <> "" -> NoDup (map fst (objects s)) ->
  (bucket_present s = false ->
   delete_embeddings (Some (doc_request u d)) s = (Ok nothing_to_delete, s) /\
   delete_embeddings (Some (user_request u)) s = (Ok nothing_to_delete, s) /\
   resp_field nothing_to_delete "documentsDeleted" = Some (JNum 0)) /\
  (bucket_present s = true ->
   (listing (document_prefix u d) s = [] ->
    delete_embeddings (Some (doc_request u d)) s =
    (Ok (error_resp 404 ("Document " ++ d ++ " not found")), s)) /\
   (listing (document_prefix u d) s <> [] ->
    delete_embeddings (Some (doc_request u d)) s =
    (Ok (delete_ok 1 ("Successfully deleted document " ++ d)),
     with_objects s (filter (fun kv => negb (String.prefix (document_prefix u d) (fst kv)))
                            (objects s))))).
Proof.
  intros Hf Hd Hnd. split.
  - intros Hb. rewrite delete_doc_request, delete_user_request, Hb by assumption.
    repeat split; reflexivity.
  - intros Hb. rewrite delete_doc_request, Hb by assumption.
    unfold try_catch, delete_one, bind. simpl py_str.
    rewrite list_blobs_healthy by assumption. split.
    + intros HL. rewrite HL. reflexivity.
    + intros HL. destruct (listing (document_prefix u d) s) as [|k L] eqn:EL; [congruence|].
      rewrite <- EL. rewrite delete_listing by assumption. reflexivity.
Qed.

Lemma delete_one_outcomes_witness :
  let other := (doc_key "u" "e" "chunks.json", Some (JArr [])) in
  let sB := mkStore true [other] [] in
  let sC := mkStore true [(doc_key "u" "d" "chunks.json", Some (JArr [chunk0])); other;
                          (doc_key "u" "d" "metadata.json", Some meta0)] [] in
  (delete_embeddings (Some (doc_request "u" "d")) empty_store = (Ok nothing_to_delete, empty_store) /\
   delete_embeddings (Some (user_request "u")) empty_store = (Ok nothing_to_delete, empty_store) /\
   resp_field nothing_to_delete "documentsDeleted" = Some (JNum 0)) /\
  delete_embeddings (Some (doc_request "u" "d")) sB =
    (Ok (error_resp 404 ("Document " ++ "d" ++ " not found")), sB) /\
  delete_embeddings (Some (doc_request "u" "d")) sC =
    (Ok (delete_ok 1 ("Successfully deleted document " ++ "d")),
     with_objects sC (filter (fun kv => negb (String.prefix (document_prefix "u" "d") (fst kv)))
                             (objects sC))) /\
  objects (with_objects sC (filter (fun kv => negb (String.prefix (document_prefix "u" "d") (fst kv)))
                                   (objects sC))) = [other].
Proof.
  intros other sB sC.
  assert (Hd : "d" <> "") by discriminate.
  split; [exact (proj1 (delete_one_outcomes "u" "d" empty_store eq_refl Hd (NoDup_nil _)) eq_refl)|].
  split.
  { assert (HndB : NoDup (map fst (objects sB))) by (repeat constructor; simpl; tauto).
    destruct (delete_one_outcomes "u" "d" sB eq_refl Hd HndB) as [_ HB].
    destruct (HB eq_refl) as [H404 _]. apply H404. vm_compute. reflexivity. }
  assert (HndC : NoDup (map fst (objects sC))).
  { cbv [sC other objects map fst doc_key].
    repeat constructor; simpl; intuition discriminate. }
  split; [|vm_compute; reflexivity].
  destruct (delete_one_outcomes "u" "d" sC eq_refl Hd HndC) as [_ HB].
  destruct (HB eq_refl) as [_ Hdel]. apply Hdel. vm_compute. discriminate.
Defined.

(** C9: in all-documents Delete every listed object is removed, but only
    keys with at least 5 segments add their 4th segment to the count; so
    the count can be below the number of distinct 4th segments deleted
    (below, [users/u/documents/x] and [users/u/documents/d/chunks.json]:
    two groups removed, [documentsDeleted] = 1). *)
Theorem delete_all_short_keys_uncounted u s :
  failing s = [] -> bucket_present s = true -> NoDup (map fst (objects s)) ->
  (exists ds,
    NoDup ds /\
    (forall x, In x ds <-> exists k, In k (listing (user_prefix u) s) /\
                                     has5 k = true /\ seg3 k = x) /\
    delete_embeddings (Some (user_request u)) s =
    (Ok (delete_ok (length ds) ("Successfully deleted " ++ dec_of_nat (length ds)
                                ++ " documents for user " ++ u)),
     with_objects s (filter (fun kv => negb (String.prefix (user_prefix u) (fst kv)))
                            (objects s)))) /\
  (let s9 := mkStore true [("users/u/documents/d/chunks.json", Some (JArr []));
                           ("users/u/documents/x", Some JNull)] [] in
   delete_embeddings (Some (user_request "u")) s9 =
   (Ok (delete_ok 1 "Successfully deleted 1 documents for user u"), mkStore true [] []) /\
   map seg3 (listing (user_prefix "u") s9) = ["d"; "x"]).
Proof.
  intros Hf Hb Hnd. split.
  - exact (delete_all_spec u s Hf Hb Hnd).
  - split; reflexivity.
Qed.

Lemma delete_all_short_keys_uncounted_witness :
  delete_embeddings (Some (user_request "u"))
    (mkStore true [("users/u/documents/d/chunks.json", Some (JArr []));
                   ("users/u/documents/x", Some JNull)] [])
  = (Ok (delete_ok 1 "Successfully deleted 1 documents for user u"), mkStore true [] []).
Proof.
  exact (proj1 (proj2 (delete_all_short_keys_uncounted "u" (mkStore true [] [])
                         eq_refl eq_refl (NoDup_nil _)))).
Defined.

(** ** Grouping of the listing in all-documents Retrieve *)

Lemma map_fst_dict_set {A : Type} k (w : A) d :
  map fst (dict_set k w d) =
  if existsb (String.eqb k) (map fst d) then map fst d else (map fst d ++ [k])%list.
Proof.
  induction d as [|[k' v'] t IH]; simpl; [reflexivity|].
  destruct (String.eqb k k') eqn:E; simpl.
  - apply String.eqb_eq in E. subst. reflexivity.
  - rewrite IH. destruct (existsb _ _); reflexivity.
Qed.

Lemma in_dict_set {A : Type} k (w : A) d a v :
  NoDup (map fst d) -> In (a, v) (dict_set k w d) ->
  (a = k /\ v = w) \/ (a <> k /\ In (a, v) d).
Proof.
  induction d as [|[k' v'] t IH]; simpl; intros Hnd Hin.
  - destruct Hin as [H|[]]. injection H as -> ->. left; auto.
  - inversion Hnd as [|? ? Hnot Hnd']; subst.
    destruct (String.eqb k k') eqn:E.
    + apply String.eqb_eq in E. subst k'. destruct Hin as [H|H].
      * injection H as -> ->. left; auto.
      * right. split; [|right; exact H]. intros ->.
        apply Hnot. apply in_map_iff. exists (k, v). auto.
    + destruct Hin as [H|H].
      * injection H as -> ->. right. split; [|left; reflexivity].
        intros ->. rewrite String.eqb_refl in E. discriminate.
      * destruct (IH Hnd' H) as [Hl|[Hne Hr]]; [left; exact Hl|right; auto].
Qed.

Lemma assoc_some_in {A : Type} k (v : A) d : assoc k d = Some v -> In (k, v) d.
Proof.
  induction d as [|[k' v'] t IH]; simpl; [discriminate|].
  destruct (String.eqb k k') eqn:E; intros H.
  - apply String.eqb_eq in E. injection H as <-. subst. left; reflexivity.
  - right. auto.
Qed.

Lemma seg3_doc_key u d f :
  no_slash u = true -> no_slash d = true -> no_slash f = true -> seg3 (doc_key u d f) = d.
Proof. intros. unfold seg3. rewrite split_doc_key by assumption. reflexivity. Qed.

Lemma doc_key_eqb_other u d f d' f' :
  no_slash u = true -> no_slash d = true -> no_slash f = true ->
  no_slash d' = true -> no_slash f' = true -> (d <> d' \/ f <> f') ->
  String.eqb (doc_key u d f) (doc_key u d' f') = false.
Proof.
  intros Hu Hd Hf Hd' Hf' Hne. apply String.eqb_neq. intros H.
  destruct (doc_key_inj u d f d' f' Hu Hd Hf Hd' Hf' H). tauto.
Qed.

Lemma group_inv_step u G P d0 f0 :
  no_slash u = true -> no_slash d0 = true -> no_slash f0 = true ->
  group_inv u G P ->
  group_inv u (dict_set d0 (dict_set f0 (doc_key u d0 f0)
                              (match assoc d0 G with Some f => f | None => [] end)) G)
              (P ++ [doc_key u d0 f0]).
Proof.
  intros Hu Hd0 Hf0 [Hnd [Hdom Hfiles]].
  assert (Hdom' : forall d, In d (map fst (dict_set d0 (dict_set f0 (doc_key u d0 f0)
                    (match assoc d0 G with Some f => f | None => [] end)) G))
                  <-> In d (map fst G) \/ d = d0).
  { intros d. rewrite map_fst_dict_set.
    destruct (existsb (String.eqb d0) (map fst G)) eqn:E.
    - apply existsb_exists in E. destruct E as [z [Hz Heq]]. apply String.eqb_eq in Heq.
      subst z. split; [tauto|]. intros [H| ->]; assumption.
    - rewrite in_app_iff. simpl. intuition. }
  split; [|split].
  - rewrite map_fst_dict_set. destruct (existsb (String.eqb d0) (map fst G)) eqn:E; [exact Hnd|].
    apply NoDup_app; [exact Hnd|constructor; [tauto|constructor]|].
    intros a Ha [Ha' | []]. subst a.
    assert (existsb (String.eqb d0) (map fst G) = true)
      by (apply existsb_exists; exists d0; split; [exact Ha|apply String.eqb_refl]).
    congruence.
  - intros d. rewrite Hdom', Hdom. split.
    + intros [[k [Hk H3]]| ->].
      * exists k. rewrite in_app_iff. auto.
      * exists (doc_key u d0 f0). rewrite in_app_iff. split; [right; left; reflexivity|].
        apply seg3_doc_key; assumption.
    + intros [k [Hk H3]]. rewrite in_app_iff in Hk. destruct Hk as [Hk|[<-|[]]].
      * left. exists k. auto.
      * right. rewrite <- H3. apply seg3_doc_key; assumption.
  - intros d files Hin.
    destruct (in_dict_set _ _ _ _ _ Hnd Hin) as [[-> ->]|[Hne Hin0]].
    + split; [exact Hd0|]. intros f Hf.
      rewrite existsb_app. cbn [existsb]. rewrite orb_false_r.
      destruct (String.eqb_spec f f0) as [->|Hff].
      * rewrite assoc_dict_set_same. rewrite String.eqb_refl, orb_true_r.
        reflexivity.
      * rewrite assoc_dict_set_other by exact Hff.
        rewrite doc_key_eqb_other by auto. rewrite orb_false_r.
        destruct (assoc d0 G) as [fs|] eqn:Eg.
        -- apply assoc_some_in in Eg. exact (proj2 (Hfiles _ _ Eg) f Hf).
        -- cbn [assoc]. destruct (existsb (String.eqb (doc_key u d0 f)) P) eqn:Ex; [|reflexivity].
           exfalso. apply existsb_exists in Ex. destruct Ex as [k [Hk Heq]].
           apply String.eqb_eq in Heq. subst k.
           assert (Hin' : In d0 (map fst G)).
           { apply Hdom. exists (doc_key u d0 f). split; [exact Hk|].
             apply seg3_doc_key; assumption. }
           destruct (assoc_in d0 G Hin') as [v Hv]. congruence.
    + destruct (Hfiles d files Hin0) as [Hd Hf]. split; [exact Hd|].
      intros f Hfs. rewrite (Hf f Hfs). rewrite existsb_app. cbn [existsb].
      rewrite doc_key_eqb_other by auto. rewrite orb_false_r. reflexivity.
Qed.

Lemma group_blobs_inv u L G P :
  no_slash u = true ->
  (forall k, In k L -> exists d f, k = doc_key u d f /\ no_slash d = true /\ no_slash f = true) ->
  group_inv u G P -> group_inv u (group_blobs G L) (P ++ L).
Proof.
  intros Hu. revert G P. induction L as [|k L IH]; intros G P HL Hinv.
  - simpl. rewrite app_nil_r. exact Hinv.
  - destruct (HL k (or_introl eq_refl)) as [d0 [f0 [-> [Hd0 Hf0]]]].
    cbn [group_blobs]. rewrite split_doc_key by assumption. simpl.
    replace (P ++ doc_key u d0 f0 :: L)%list with ((P ++ [doc_key u d0 f0]) ++ L)%list
      by (rewrite <- app_assoc; reflexivity).
    apply IH; [intros k Hk; apply HL; right; exact Hk|].
    apply group_inv_step; assumption.
Qed.

(** ** Collection of the grouped documents in all-documents Retrieve *)

Lemma bind_ok {A B : Type} (m : M A) (k : A -> M B) s a s' :
  m s = (Ok a, s') -> bind m k s = k a s'.
Proof. intros H. unfold bind. rewrite H. reflexivity. Qed.

Lemma download_healthy k p s :
  failing s = [] -> bucket_present s = true -> assoc k (objects s) = Some p ->
  download k s = (Ok p, s).
Proof.
  intros Hf Hb Hk. destruct s as [b o f]; simpl in *; subst.
  unfold download. unfold_M. simpl. rewrite Hk. reflexivity.
Qed.

Lemma existsb_eqb_map_fst {A : Type} k (o : list (string * A)) :
  existsb (String.eqb k) (map fst o) =
  match assoc k o with Some _ => true | None => false end.
Proof.
  induction o as [|[k' v'] t IH]; simpl; [reflexivity|].
  destruct (String.eqb k k'); [reflexivity|exact IH].
Qed.

Lemma existsb_eqb_filter k (q : string -> bool) l :
  q k = true -> existsb (String.eqb k) (filter q l) = existsb (String.eqb k) l.
Proof.
  intros Hq. induction l as [|x t IH]; simpl; [reflexivity|].
  destruct (q x) eqn:Ex; simpl; rewrite IH; [reflexivity|].
  destruct (String.eqb_spec k x) as [->|_]; [congruence|reflexivity].
Qed.

Lemma existsb_listing u d f s :
  existsb (String.eqb (doc_key u d f)) (listing (user_prefix u) s) =
  match assoc (doc_key u d f) (objects s) with Some _ => true | None => false end.
Proof.
  unfold listing. rewrite existsb_eqb_filter by apply doc_key_prefix.
  apply existsb_eqb_map_fst.
Qed.

Lemma collect_spec u s G ac am :
  failing s = [] -> bucket_present s = true -> payloads_ok u s ->
  (forall d files, In (d, files) G ->
     no_slash d = true /\
     forall f, no_slash f = true ->
       assoc f files = if existsb (String.eqb (doc_key u d f)) (listing (user_prefix u) s)
                       then Some (doc_key u d f) else None) ->
  collect G ac am s =
  (Ok ((ac ++ flat_map (fun d => stored_chunks u d s) (map fst G))%list,
       (am ++ flat_map (fun d => stored_metadata u d s) (map fst G))%list), s).
Proof.
  intros Hf Hb [Hpc Hpm]. revert ac am.
  induction G as [|[d files] G IH]; intros ac am HG.
  - cbn [collect map flat_map]. rewrite !app_nil_r. reflexivity.
  - destruct (HG d files (or_introl eq_refl)) as [Hd Hfiles].
    cbn [collect].
    rewrite (Hfiles "chunks.json"), (Hfiles "metadata.json") by reflexivity.
    rewrite !existsb_listing.
    rewrite (bind_ok _ _ s (ac ++ stored_chunks u d s)%list s).
    2:{ unfold stored_chunks.
        destruct (assoc (doc_key u d "chunks.json") (objects s)) as [p|] eqn:Ec.
        - destruct (Hpc d p Hd Ec) as [xs ->].
          rewrite (bind_ok _ _ s (Some (JArr xs)) s) by (apply download_healthy; auto).
          reflexivity.
        - rewrite app_nil_r. reflexivity. }
    rewrite (bind_ok _ _ s (am ++ stored_metadata u d s)%list s).
    2:{ unfold stored_metadata.
        destruct (assoc (doc_key u d "metadata.json") (objects s)) as [p|] eqn:Em.
        - destruct p as [m|]; [|exfalso; exact (Hpm d None Hd Em eq_refl)].
          rewrite (bind_ok _ _ s (Some m) s) by (apply download_healthy; auto).
          reflexivity.
        - rewrite app_nil_r. reflexivity. }
    rewrite IH by (intros d' files' Hin; apply HG; right; exact Hin).
    cbn [map fst flat_map]. rewrite !app_assoc. reflexivity.
Qed.

Lemma retrieve_user_request u s :
  failing s = [] ->
  retrieve_embeddings (Some (user_request u)) s =
  if bucket_present s
  then try_catch (retrieve_all (JStr u)) (fun e => ret (error_resp 500 e)) s
  else (Ok no_documents, s).
Proof.
  intros Hf. destruct s as [b o f]; simpl in Hf; subst f.
  unfold retrieve_embeddings. unfold_M. simpl. destruct b; reflexivity.
Qed.

Lemma group_inv_nil u : group_inv u [] [].
Proof.
  split; [constructor|split].
  - intros d. simpl. split; [tauto|]. intros [k [[] _]].
  - intros d files [].
Qed.

(** ** Grouping and collection on any listing *)

Lemma group_blobs_cons G k L :
  group_blobs G (k :: L) =
  group_blobs (if has5 k
               then dict_set (seg3 k) (dict_set (seg4 k) k
                      (match assoc (seg3 k) G with Some f => f | None => [] end)) G
               else G) L.
Proof. reflexivity. Qed.

Lemma last_match_snoc d f P k :
  last_match d f (P ++ [k]) =
  if has5 k && String.eqb (seg3 k) d && String.eqb (seg4 k) f then Some k
  else last_match d f P.
Proof. unfold last_match. rewrite fold_left_app. reflexivity. Qed.

Lemma last_match_some d f L k :
  last_match d f L = Some k -> In k L /\ has5 k = true /\ seg3 k = d /\ seg4 k = f.
Proof.
  revert k. induction L as [|k' L IH] using rev_ind; intros k.
  - discriminate.
  - rewrite last_match_snoc, in_app_iff.
    destruct (has5 k' && String.eqb (seg3 k') d && String.eqb (seg4 k') f) eqn:E.
    + intros H. injection H as <-.
      apply andb_prop in E. destruct E as [E E4]. apply andb_prop in E. destruct E as [E5 E3].
      apply String.eqb_eq in E3, E4. split; [right; left; reflexivity|auto].
    + intros H. destruct (IH k H) as [Hin R]. auto.
Qed.

Lemma group_gen_nil : group_gen [] [].
Proof.
  split; [constructor|split].
  - intros d. simpl. split; [tauto|]. intros [k [[] _]].
  - intros d files [].
Qed.

Lemma group_gen_step G P k :
  group_gen G P ->
  group_gen (if has5 k
             then dict_set (seg3 k) (dict_set (seg4 k) k
                    (match assoc (seg3 k) G with Some f => f | None => [] end)) G
             else G) (P ++ [k]).
Proof.
  intros [Hnd [Hdom Hfiles]]. destruct (has5 k) eqn:E5.
  - assert (Hdom' : forall d, In d (map fst (dict_set (seg3 k) (dict_set (seg4 k) k
                      (match assoc (seg3 k) G with Some f => f | None => [] end)) G))
                    <-> In d (map fst G) \/ d = seg3 k).
    { intros d. rewrite map_fst_dict_set.
      destruct (existsb (String.eqb (seg3 k)) (map fst G)) eqn:E.
      - apply existsb_exists in E. destruct E as [z [Hz Heq]]. apply String.eqb_eq in Heq.
        subst z. split; [tauto|]. intros [H| ->]; assumption.
      - rewrite in_app_iff. simpl. intuition. }
    split; [|split].
    + rewrite map_fst_dict_set.
      destruct (existsb (String.eqb (seg3 k)) (map fst G)) eqn:E; [exact Hnd|].
      apply NoDup_app; [exact Hnd|constructor; [tauto|constructor]|].
      intros a Ha [Ha' | []]. subst a.
      assert (existsb (String.eqb (seg3 k)) (map fst G) = true)
        by (apply existsb_exists; exists (seg3 k); split; [exact Ha|apply String.eqb_refl]).
      congruence.
    + intros d. rewrite Hdom', Hdom. split.
      * intros [[k' [Hk [H5 H3]]]| ->].
        -- exists k'. rewrite in_app_iff. auto.
        -- exists k. rewrite in_app_iff. simpl. auto.
      * intros [k' [Hk [H5 H3]]]. rewrite in_app_iff in Hk. destruct Hk as [Hk|[<-|[]]].
        -- left. exists k'. auto.
        -- right. symmetry. exact H3.
    + intros d files Hin f. rewrite last_match_snoc, E5. cbn [andb].
      destruct (in_dict_set _ _ _ _ _ Hnd Hin) as [[-> ->]|[Hne Hin0]].
      * rewrite String.eqb_refl. cbn [andb].
        destruct (String.eqb_spec (seg4 k) f) as [<-|Hff].
        -- apply assoc_dict_set_same.
        -- rewrite assoc_dict_set_other by (intros ->; apply Hff; reflexivity).
           destruct (assoc (seg3 k) G) as [fs|] eqn:Eg.
           ++ apply assoc_some_in in Eg. exact (Hfiles _ _ Eg f).
           ++ cbn [assoc]. destruct (last_match (seg3 k) f P) as [k'|] eqn:Ek; [|reflexivity].
              exfalso. destruct (last_match_some _ _ _ _ Ek) as [Hk [H5 [H3 _]]].
              assert (Hin' : In (seg3 k) (map fst G)) by (apply Hdom; exists k'; auto).
              destruct (assoc_in (seg3 k) G Hin') as [v Hv]. congruence.
      * destruct (String.eqb_spec (seg3 k) d) as [Heq|_]; [congruence|].
        cbn [andb]. exact (Hfiles d files Hin0 f).
  - split; [exact Hnd|split].
    + intros d. rewrite Hdom. split; intros [k' [Hk [H5 H3]]]; exists k'.
      * rewrite in_app_iff. auto.
      * rewrite in_app_iff in Hk. destruct Hk as [Hk|[<-|[]]]; [auto|congruence].
    + intros d files Hin f. rewrite last_match_snoc, E5. cbn [andb].
      exact (Hfiles d files Hin f).
Qed.

Lemma group_blobs_gen L G P : group_gen G P -> group_gen (group_blobs G L) (P ++ L).
Proof.
  revert G P. induction L as [|k L IH]; intros G P Hinv.
  - cbn [group_blobs]. rewrite app_nil_r. exact Hinv.
  - rewrite group_blobs_cons.
    replace (P ++ k :: L)%list with ((P ++ [k]) ++ L)%list
      by (rewrite <- app_assoc; reflexivity).
    apply IH, group_gen_step, Hinv.
Qed.

Lemma bind_raise {A B : Type} (m : M A) (k : A -> M B) s e s' :
  m s = (Raise e, s') -> bind m k s = (Raise e, s').
Proof. intros H. unfold bind. rewrite H. reflexivity. Qed.

Lemma py_extend_acc acc j :
  py_extend acc j =
  match py_extend [] j with Ok xs => Ok (acc ++ xs)%list | Raise e => Raise e end.
Proof. destruct j; reflexivity. Qed.

Lemma listing_assoc p s k : In k (listing p s) -> exists v, assoc k (objects s) = Some v.
Proof. unfold listing. intros H. apply filter_In in H. apply assoc_in, H. Qed.

Lemma collect_chunks_step u d s files ac :
  failing s = [] -> bucket_present s = true ->
  assoc "chunks.json" files = selected u d "chunks.json" s ->
  exists e,
    (match assoc "chunks.json" files with
     | Some b => chunks_data <- download b ;;
                 chunks <- json_loads chunks_data ;;
                 lift (py_extend ac chunks)
     | None => ret ac
     end) s =
    if selected_chunks_ok u d s then (Ok (ac ++ selected_chunks u d s)%list, s)
    else (Raise e, s).
Proof.
  intros Hf Hb Hsel. rewrite Hsel.
  unfold selected_chunks_ok, selected_chunks, selected_payload.
  destruct (selected u d "chunks.json" s) as [k|] eqn:Ek.
  - destruct (last_match_some _ _ _ _ Ek) as [Hin _].
    destruct (listing_assoc _ _ _ Hin) as [p Hp]. rewrite Hp.
    rewrite (bind_ok _ _ s p s) by (apply download_healthy; assumption).
    destruct p as [j|].
    + cbv [json_loads bind ret lift]. rewrite py_extend_acc.
      destruct (py_extend [] j) as [xs|e]; [exists ""; reflexivity|exists e; reflexivity].
    + eexists. reflexivity.
  - exists "". rewrite app_nil_r. reflexivity.
Qed.

Lemma collect_metadata_step u d s files am :
  failing s = [] -> bucket_present s = true ->
  assoc "metadata.json" files = selected u d "metadata.json" s ->
  exists e,
    (match assoc "metadata.json" files with
     | Some b => metadata_data <- download b ;;
                 metadata <- json_loads metadata_data ;;
                 ret (am ++ [metadata])%list
     | None => ret am
     end) s =
    if selected_metadata_ok u d s then (Ok (am ++ selected_metadata u d s)%list, s)
    else (Raise e, s).
Proof.
  intros Hf Hb Hsel. rewrite Hsel.
  unfold selected_metadata_ok, selected_metadata, selected_payload.
  destruct (selected u d "metadata.json" s) as [k|] eqn:Ek.
  - destruct (last_match_some _ _ _ _ Ek) as [Hin _].
    destruct (listing_assoc _ _ _ Hin) as [p Hp]. rewrite Hp.
    rewrite (bind_ok _ _ s p s) by (apply download_healthy; assumption).
    destruct p as [j|]; [exists ""; reflexivity|eexists; reflexivity].
  - exists "". rewrite app_nil_r. reflexivity.
Qed.

Lemma collect_gen u s G ac am :
  failing s = [] -> bucket_present s = true ->
  (forall d files, In (d, files) G -> forall f, assoc f files = selected u d f s) ->
  ((forall d, In d (map fst G) -> selected_chunks_ok u d s && selected_metadata_ok u d s = true) ->
   collect G ac am s =
   (Ok ((ac ++ flat_map (fun d => selected_chunks u d s) (map fst G))%list,
        (am ++ flat_map (fun d => selected_metadata u d s) (map fst G))%list), s)) /\
  ((exists d, In d (map fst G) /\ selected_chunks_ok u d s && selected_metadata_ok u d s = false) ->
   exists e, collect G ac am s = (Raise e, s)).
Proof.
  intros Hf Hb. revert ac am.
  induction G as [|[d files] G IH]; intros ac am HG.
  - split.
    + intros _. cbn [collect map flat_map]. rewrite !app_nil_r. reflexivity.
    + intros [d [[] _]].
  - assert (HG' : forall d' files', In (d', files') G -> forall f, assoc f files' = selected u d' f s)
      by (intros; apply HG; right; assumption).
    destruct (collect_chunks_step u d s files ac Hf Hb (HG d files (or_introl eq_refl) _))
      as [e1 Hc].
    destruct (collect_metadata_step u d s files am Hf Hb (HG d files (or_introl eq_refl) _))
      as [e2 Hm].
    destruct (IH (ac ++ selected_chunks u d s)%list (am ++ selected_metadata u d s)%list HG')
      as [IH1 IH2].
    cbn [collect map fst].
    destruct (selected_chunks_ok u d s) eqn:Ec.
    + rewrite (bind_ok _ _ s _ s Hc).
      destruct (selected_metadata_ok u d s) eqn:Em.
      * rewrite (bind_ok _ _ s _ s Hm). split.
        -- intros Hok. rewrite IH1 by (intros d' Hd'; apply Hok; right; exact Hd').
           cbn [flat_map]. rewrite !app_assoc. reflexivity.
        -- intros [d' [[<-|Hd'] Hbad]]; [rewrite Ec, Em in Hbad; discriminate|].
           apply IH2. exists d'. auto.
      * rewrite (bind_raise _ _ s e2 s Hm). split.
        -- intros Hok. specialize (Hok d (or_introl eq_refl)). rewrite Ec, Em in Hok. discriminate.
        -- intros _. exists e2. reflexivity.
    + rewrite (bind_raise _ _ s e1 s Hc). split.
      * intros Hok. specialize (Hok d (or_introl eq_refl)). rewrite Ec in Hok. discriminate.
      * intros _. exists e1. reflexivity.
Qed.


(** C5 (counterexample): the grouping keys a document's files by the 5th
    path segment alone, so an object [users/u/documents/d/chunks.json/x],
    listed after [users/u/documents/d/chunks.json], takes its place: the
    response carries the chunks of the former, not those stored in
    [chunks.json]. *)
Lemma retrieve_all_shadowed_chunks :
  let s := mkStore true
             [(doc_key "u" "d" "chunks.json", Some (JArr [JNum 1]));
              ("users/u/documents/d/chunks.json/x", Some (JArr [JNum 2]))] [] in
  stored_chunks "u" "d" s = [JNum 1] /\
  retrieve_embeddings (Some (user_request "u")) s = (Ok (retrieve_ok [JNum 2] []), s).
Proof. split; vm_compute; reflexivity. Qed.

(** C5 (amended): in all-documents mode, on a healthy store with the
    bucket present, the listed objects are grouped by their 4th path
    segment [d], over the names with at least five segments, each distinct
    [d] once; within a group a file is keyed by the 5th segment alone, so
    of several listed names with the same 4th and 5th segments the last
    one is read (a longer key such as [.../{d}/chunks.json/x] listed later
    replaces [chunks.json]).  When every group's selected [chunks.json]
    (if any) is JSON that [extend] accepts and its selected
    [metadata.json] (if any) is JSON, the response is a 200 whose chunks
    concatenate the groups' chunk lists and whose metadata list holds each
    group's parsed [metadata.json] when present, with [documentsCount] its
    length; when some group's selected file cannot be read that way (for
    instance a text that is not JSON) the response is HTTP 500.  The store
    is not modified.  In particular, when every listed key is
    [users/{u}/documents/{d}/{f}] with slash-free segments, [chunks.json]
    holds a JSON array and [metadata.json] holds JSON, the groups are the
    distinct 4th segments and each contributes the contents of its own
    [chunks.json] and [metadata.json]. *)
Theorem retrieve_all_groups_by_document u s :
  failing s = [] -> bucket_present s = true ->
  (key_space_ok u s -> payloads_ok u s ->
   exists ds,
     NoDup ds /\
     (forall d, In d ds <-> exists k, In k (listing (user_prefix u) s) /\ seg3 k = d) /\
     retrieve_embeddings (Some (user_request u)) s =
     (Ok (retrieve_ok (flat_map (fun d => stored_chunks u d s) ds)
                      (flat_map (fun d => stored_metadata u d s) ds)), s) /\
     resp_field
       (retrieve_ok (flat_map (fun d => stored_chunks u d s) ds)
                    (flat_map (fun d => stored_metadata u d s) ds)) "documentsCount"
     = Some (JNum (Z.of_nat (length (flat_map (fun d => stored_metadata u d s) ds))))) /\
  (exists ds,
     NoDup ds /\
     (forall d, In d ds <->
                exists k, In k (listing (user_prefix u) s) /\ has5 k = true /\ seg3 k = d) /\
     ((forall d, In d ds -> selected_chunks_ok u d s && selected_metadata_ok u d s = true) ->
      retrieve_embeddings (Some (user_request u)) s =
      (Ok (retrieve_ok (flat_map (fun d => selected_chunks u d s) ds)
                       (flat_map (fun d => selected_metadata u d s) ds)), s)) /\
     ((exists d, In d ds /\ selected_chunks_ok u d s && selected_metadata_ok u d s = false) ->
      exists e, retrieve_embeddings (Some (user_request u)) s = (Ok (error_resp 500 e), s)) /\
     resp_field
       (retrieve_ok (flat_map (fun d => selected_chunks u d s) ds)
                    (flat_map (fun d => selected_metadata u d s) ds)) "documentsCount"
     = Some (JNum (Z.of_nat (length (flat_map (fun d => selected_metadata u d s) ds))))).
Proof.
  intros Hf Hb. split.
  - intros [Hu Hks] Hp.
    destruct (group_blobs_inv u (listing (user_prefix u) s) [] [] Hu Hks (group_inv_nil u))
      as [Hnd [Hdom Hfiles]].
    cbn [app] in Hdom, Hfiles.
    exists (map fst (group_blobs [] (listing (user_prefix u) s))).
    split; [exact Hnd|split; [exact Hdom|split]].
    + rewrite retrieve_user_request, Hb by exact Hf.
      unfold try_catch, retrieve_all.
      rewrite (bind_ok _ _ s (listing (user_prefix u) s) s)
        by (apply list_blobs_healthy; assumption).
      cbv beta zeta.
      rewrite (bind_ok _ _ s _ s (collect_spec u s _ [] [] Hf Hb Hp Hfiles)).
      reflexivity.
    + reflexivity.
  - destruct (group_blobs_gen (listing (user_prefix u) s) [] [] group_gen_nil)
      as [Hnd [Hdom Hfiles]].
    cbn [app] in Hdom, Hfiles.
    destruct (collect_gen u s (group_blobs [] (listing (user_prefix u) s)) [] [] Hf Hb Hfiles)
      as [Hok Hbad].
    exists (map fst (group_blobs [] (listing (user_prefix u) s))).
    split; [exact Hnd|split; [exact Hdom|split; [|split]]].
    + intros H. rewrite retrieve_user_request, Hb by exact Hf.
      unfold try_catch, retrieve_all.
      rewrite (bind_ok _ _ s (listing (user_prefix u) s) s)
        by (apply list_blobs_healthy; assumption).
      cbv beta zeta.
      rewrite (bind_ok _ _ s _ s (Hok H)).
      reflexivity.
    + intros H. destruct (Hbad H) as [e He]. exists e.
      rewrite retrieve_user_request, Hb by exact Hf.
      unfold try_catch, retrieve_all.
      rewrite (bind_ok _ _ s (listing (user_prefix u) s) s)
        by (apply list_blobs_healthy; assumption).
      cbv beta zeta.
      rewrite (bind_raise _ _ s e s He).
      reflexivity.
    + reflexivity.
Qed.

Lemma retrieve_all_groups_by_document_witness :
  let sK := mkStore true [(doc_key "u" "d1" "chunks.json", Some (JArr [chunk0]));
                          (doc_key "u" "d1" "metadata.json", Some meta0);
                          (doc_key "u" "d2" "chunks.json", Some (JArr []))] [] in
  let sS := mkStore true [(doc_key "u" "d" "chunks.json", Some (JArr [JNum 1]));
                          ("users/u/documents/d/chunks.json/x", Some (JArr [JNum 2]))] [] in
  let sC := mkStore true [(doc_key "u" "d" "chunks.json", Some (JArr [chunk0]));
                          (doc_key "u" "d" "metadata.json", None)] [] in
  (key_space_ok "u" sK /\ payloads_ok "u" sK /\
   exists ds,
     NoDup ds /\
     (forall d, In d ds <-> exists k, In k (listing (user_prefix "u") sK) /\ seg3 k = d) /\
     retrieve_embeddings (Some (user_request "u")) sK =
     (Ok (retrieve_ok (flat_map (fun d => stored_chunks "u" d sK) ds)
                      (flat_map (fun d => stored_metadata "u" d sK) ds)), sK)) /\
  (exists ds,
     (forall d, In d ds -> selected_chunks_ok "u" d sS && selected_metadata_ok "u" d sS = true) /\
     selected_chunks "u" "d" sS = [JNum 2] /\
     retrieve_embeddings (Some (user_request "u")) sS =
     (Ok (retrieve_ok (flat_map (fun d => selected_chunks "u" d sS) ds)
                      (flat_map (fun d => selected_metadata "u" d sS) ds)), sS)) /\
  (exists d, selected_metadata_ok "u" d sC = false /\
   exists e, retrieve_embeddings (Some (user_request "u")) sC = (Ok (error_resp 500 e), sC)).
Proof.
  intros sK sS sC.
  assert (Hks : key_space_ok "u" sK).
  { split; [vm_compute; reflexivity|].
    intros k Hk. vm_compute in Hk.
    destruct Hk as [<-|[<-|[<-|[]]]];
      [exists "d1", "chunks.json"|exists "d1", "metadata.json"|exists "d2", "chunks.json"];
      (split; [reflexivity|split; vm_compute; reflexivity]). }
  assert (Hp : payloads_ok "u" sK).
  { split; intros d p Hd Hp; apply assoc_some_in in Hp; cbv [sK objects] in Hp;
      destruct Hp as [Hp|[Hp|[Hp|[]]]];
      pose proof (f_equal snd Hp) as Hq; pose proof (f_equal fst Hp) as Hk;
      cbn [fst snd] in Hq, Hk; subst p;
      try (eexists; reflexivity); try discriminate.
    apply doc_key_inj in Hk; [|reflexivity|reflexivity|reflexivity|exact Hd|reflexivity].
    destruct Hk as [_ Hk]. discriminate. }
  split; [|split].
  - split; [exact Hks|split; [exact Hp|]].
    destruct (proj1 (retrieve_all_groups_by_document "u" sK eq_refl eq_refl) Hks Hp)
      as [ds [Hnd [Hdom [Hr _]]]].
    exists ds. auto.
  - destruct (proj2 (retrieve_all_groups_by_document "u" sS eq_refl eq_refl))
      as [ds [_ [Hdom [Hok _]]]].
    assert (Hall : forall d, In d ds ->
                   selected_chunks_ok "u" d sS && selected_metadata_ok "u" d sS = true).
    { intros d Hd. apply Hdom in Hd. destruct Hd as [k [Hk [_ H3]]].
      vm_compute in Hk. destruct Hk as [<-|[<-|[]]]; subst d; vm_compute; reflexivity. }
    exists ds. split; [exact Hall|split; [vm_compute; reflexivity|exact (Hok Hall)]].
  - destruct (proj2 (retrieve_all_groups_by_document "u" sC eq_refl eq_refl))
      as [ds [_ [Hdom [_ [Hbad _]]]]].
    exists "d". split; [vm_compute; reflexivity|].
    apply Hbad. exists "d". split; [|vm_compute; reflexivity].
    apply Hdom. exists (doc_key "u" "d" "metadata.json").
    split; [vm_compute; tauto|split; vm_compute; reflexivity].
Defined.

Lemma save_validation_witness :
  let kvs1 := [("userId", JStr "u"); ("fileName", JStr "f.pdf")] in
  let kvs2 := [("userId", JStr "u"); ("documentId", JStr "d"); ("fileName", JStr "f.pdf");
               ("chunks", JStr "c"); ("metadata", JObj [])] in
  let kvs3 := [("userId", JStr "u"); ("documentId", JStr ""); ("fileName", JStr "");
               ("chunks", JArr [chunk0]); ("metadata", JObj [])] in
  let s := mkStore true [] [OpUpload (metadata_blob_name "u" "")] in
  save_embeddings None s = (Ok (error_resp 400 "No JSON data provided"), s) /\
  (exists f pre post,
     required_fields = (pre ++ f :: post)%list /\ assoc f kvs1 = None /\
     (forall g, In g pre -> assoc g kvs1 <> None) /\
     save_embeddings (Some (JObj kvs1)) s =
     (Ok (error_resp 400 ("Missing required field: " ++ f)), s)) /\
  save_embeddings (Some (JObj kvs2)) s = (Ok (error_resp 400 "chunks must be an array"), s) /\
  (exists r s', save_embeddings (Some (JObj kvs3)) s = (Ok r, s') /\ resp_status r <> 400%Z).
Proof.
  intros kvs1 kvs2 kvs3 s.
  assert (Hall : forall kvs : list (string * json), assoc "userId" kvs <> None -> assoc "documentId" kvs <> None ->
                 assoc "fileName" kvs <> None -> assoc "chunks" kvs <> None ->
                 assoc "metadata" kvs <> None ->
                 forall f, In f required_fields -> assoc f kvs <> None).
  { intros kvs H1 H2 H3 H4 H5 f Hf. simpl in Hf.
    repeat destruct Hf as [<-|Hf]; auto. }
  destruct (save_validation kvs1 s) as [H1 [_ [H3 _]]].
  destruct (save_validation kvs2 s) as [_ [_ [_ H4]]].
  destruct (save_validation kvs3 s) as [_ [_ [_ H5]]].
  split; [exact H1|split; [|split]].
  - apply H3; [discriminate|]. exists "documentId". split; [simpl; tauto|reflexivity].
  - refine (proj1 (H4 _) (JStr "c") eq_refl _);
      [apply Hall; discriminate|intros xs; discriminate].
  - refine (proj2 (proj2 (H5 _)) chunk0 [] eq_refl). apply Hall; discriminate.
Defined.


(** ** Effects of the handlers: Retrieve reads, Delete only removes *)

(** Retrieve never changes the store, whatever the request and whatever
    the service does: no object is written or removed, the bucket is never
    created; the same holds for its HTTP entry point. *)
Lemma retrieve_never_writes (request_json : option json) (request : request) s :
  snd (retrieve_embeddings request_json s) = s /\
  snd (retrieve_embeddings_http request s) = s.
Proof.
  assert (H : forall b, read_only (retrieve_embeddings b)).
  { intros b. unfold retrieve_embeddings, retrieve_one, retrieve_all. ro_solve.
    apply ro_collect. }
  split; [apply H|].
  unfold retrieve_embeddings_http, http_entry.
  destruct (String.eqb (method request) "OPTIONS"); [reflexivity|].
  revert s. apply ro_bind; [apply H|intros r; apply ro_ret].
Qed.

Section OnlyRemoves.

Lemma filter_true {A : Type} (l : list A) : filter (fun _ => true) l = l.
Proof. induction l as [|x t IH]; simpl; [reflexivity|now rewrite IH]. Qed.

Lemma ro_or {A : Type} (m : M A) : read_only m -> only_removes m.
Proof.
  intros H s. rewrite (H s). split; [reflexivity|split; [reflexivity|]].
  exists (fun _ => true). symmetry. apply filter_true.
Qed.

Lemma or_bind {A B : Type} (m : M A) (k : A -> M B) :
  only_removes m -> (forall a, only_removes (k a)) -> only_removes (bind m k).
Proof.
  intros Hm Hk s. unfold bind. destruct (Hm s) as [Hb1 [Hf1 [k1 Ho1]]].
  destruct (m s) as [[a|e] s1] eqn:E; simpl in *.
  - destruct (Hk a s1) as [Hb2 [Hf2 [k2 Ho2]]].
    split; [congruence|split; [congruence|]].
    exists (fun x => k1 x && k2 x). rewrite Ho2, Ho1. apply filter_compose.
  - split; [exact Hb1|split; [exact Hf1|exists k1; exact Ho1]].
Qed.

Lemma or_try {A : Type} (m : M A) h :
  only_removes m -> (forall e, only_removes (h e)) -> only_removes (try_catch m h).
Proof.
  intros Hm Hh s. unfold try_catch. destruct (Hm s) as [Hb1 [Hf1 [k1 Ho1]]].
  destruct (m s) as [[a|e] s1] eqn:E; simpl in *.
  - split; [exact Hb1|split; [exact Hf1|exists k1; exact Ho1]].
  - destruct (Hh e s1) as [Hb2 [Hf2 [k2 Ho2]]].
    split; [congruence|split; [congruence|]].
    exists (fun x => k1 x && k2 x). rewrite Ho2, Ho1. apply filter_compose.
Qed.

Lemma or_delete_blob k : only_removes (delete_blob k).
Proof.
  apply or_bind; [apply ro_or, ro_guard|]. intros _ s.
  destruct s as [b o f]; simpl; destruct b, (assoc k o); simpl;
    (split; [reflexivity|split; [reflexivity|]]);
    solve [exists (fun kv => negb (String.eqb k (fst kv))); reflexivity
          |exists (fun _ => true); symmetry; apply filter_true].
Qed.

Lemma or_delete_blobs L : only_removes (delete_blobs L).
Proof.
  induction L as [|k L IH]; cbn [delete_blobs].
  - apply ro_or, ro_ret.
  - apply or_bind; [apply or_delete_blob|intros _; exact IH].
Qed.

End OnlyRemoves.

Ltac or_solve :=
  repeat match goal with
  | |- only_removes (bind _ _) => apply or_bind; [|intros ?; cbv beta zeta]
  | |- only_removes (try_catch _ _) => apply or_try; [|intros ?; cbv beta zeta]
  | |- only_removes (delete_blobs _) => apply or_delete_blobs
  | |- only_removes (if ?b then _ else _) => destruct b
  | |- only_removes (match ?x with _ => _ end) => destruct x
  | |- only_removes _ => apply ro_or; ro_solve
  end.

(** Delete only ever removes objects: whatever the request and whatever the
    service does, afterwards the bucket flag is unchanged (it is never
    created) and the objects are a sub-list of those before, each with its
    payload unchanged; nothing is written. *)
Lemma delete_only_removes (request_json : option json) s :
  bucket_present (snd (delete_embeddings request_json s)) = bucket_present s /\
  exists keep, objects (snd (delete_embeddings request_json s)) = filter keep (objects s).
Proof.
  assert (H : only_removes (delete_embeddings request_json)).
  { unfold delete_embeddings, delete_one, delete_all. or_solve. }
  destruct (H s) as [Hb [_ Ho]]. split; [exact Hb|exact Ho].
Qed.

(** ** Request checks of Retrieve and Delete *)

(** A truthy JSON body that is not an object (a list, a string, a number,
    [true]) never reaches the storage calls of Retrieve and Delete: both
    answer with the same 400 or 500 response for every store, which they
    leave unchanged. *)
Theorem retrieve_delete_non_object_body j :
  truthy j = true -> (forall kvs, j <> JObj kvs) ->
  exists r, (resp_status r = 400 \/ resp_status r = 500)%Z /\
    forall s, retrieve_embeddings (Some j) s = (Ok r, s) /\
              delete_embeddings (Some j) s = (Ok r, s).
Proof.
  intros Ht Hno. unfold retrieve_embeddings, delete_embeddings. rewrite Ht. cbn [negb].
  unfold try_catch, bind, lift, ret, throw.
  destruct j as [|b|z|str|xs|kvs]; cbn [py_contains py_getitem].
  - discriminate.
  - eexists. apply and_comm. split; [intros s; split; reflexivity|right; reflexivity].
  - eexists. apply and_comm. split; [intros s; split; reflexivity|right; reflexivity].
  - destruct (is_substring "userId" str); cbn [negb].
    + eexists. apply and_comm. split; [intros s; split; reflexivity|right; reflexivity].
    + eexists. apply and_comm. split; [intros s; split; reflexivity|left; reflexivity].
  - destruct (existsb _ xs); cbn [negb].
    + eexists. apply and_comm. split; [intros s; split; reflexivity|right; reflexivity].
    + eexists. apply and_comm. split; [intros s; split; reflexivity|left; reflexivity].
  - exfalso. exact (Hno kvs eq_refl).
Qed.

Lemma retrieve_delete_non_object_body_witness :
  truthy (JArr [JStr "userId"]) = true /\ (forall kvs, JArr [JStr "userId"] <> JObj kvs) /\
  exists r, (resp_status r = 400 \/ resp_status r = 500)%Z /\
    forall s, retrieve_embeddings (Some (JArr [JStr "userId"])) s = (Ok r, s) /\
              delete_embeddings (Some (JArr [JStr "userId"])) s = (Ok r, s).
Proof.
  split; [reflexivity|split; [intros kvs; discriminate|]].
  apply retrieve_delete_non_object_body; [reflexivity|intros kvs; discriminate].
Defined.

(** A falsy [documentId] (absent, null, "", 0, false, [] or {}) selects
    the all-documents mode: Retrieve and Delete then behave exactly as on
    the request holding [userId] alone, other fields being ignored; in
    particular a Delete with [documentId] "" removes every document of the
    user. *)
Theorem falsy_document_id_means_all_documents kvs v s :
  assoc "userId" kvs = Some v ->
  match assoc "documentId" kvs with Some d => truthy d = false | None => True end ->
  retrieve_embeddings (Some (JObj kvs)) s =
    retrieve_embeddings (Some (JObj [("userId", v)])) s /\
  delete_embeddings (Some (JObj kvs)) s =
    delete_embeddings (Some (JObj [("userId", v)])) s.
Proof.
  intros Hu Hd. destruct kvs as [|kv kvs]; [discriminate|].
  remember (kv :: kvs) as l eqn:El.
  unfold retrieve_embeddings, delete_embeddings.
  replace (truthy (JObj l)) with true by (subst l; reflexivity).
  cbn [negb truthy]. unfold try_catch, bind, lift, ret.
  cbn [py_contains py_getitem py_get]. rewrite Hu. cbn [assoc].
  destruct (assoc "documentId" l) as [d|]; [rewrite Hd|]; split; reflexivity.
Qed.

Lemma falsy_document_id_means_all_documents_witness :
  assoc "userId" [("userId", JStr "u"); ("documentId", JStr "")] = Some (JStr "u") /\
  truthy (JStr "") = false /\
  delete_embeddings (Some (doc_request "u" "")) empty_store =
    delete_embeddings (Some (JObj [("userId", JStr "u")])) empty_store.
Proof.
  split; [reflexivity|split; [reflexivity|]].
  exact (proj2 (falsy_document_id_means_all_documents
                  [("userId", JStr "u"); ("documentId", JStr "")] (JStr "u") empty_store
                  eq_refl eq_refl)).
Defined.

(** ** Save is idempotent *)

Lemma dict_set_present {A : Type} k (v : A) d :
  assoc k d = Some v -> dict_set k v d = d.
Proof.
  induction d as [|[k' v'] t IH]; simpl; [discriminate|].
  destruct (String.eqb k k') eqn:E; intros H.
  - injection H as ->. apply String.eqb_eq in E. subst. reflexivity.
  - rewrite IH by exact H. reflexivity.
Qed.

(** On a healthy store, repeating a Save request changes nothing: the
    second run gets the same response as the first and leaves the store as
    the first left it. *)
Theorem save_idempotent request_json s :
  failing s = [] ->
  save_embeddings request_json (snd (save_embeddings request_json s)) =
  save_embeddings request_json s.
Proof.
  intros Hf. destruct request_json as [rj|]; [|reflexivity].
  destruct (save_cases rj) as [[r Hr]|[u [d [fn [xs [m Hr]]]]]].
  - rewrite !Hr. reflexivity.
  - assert (Hp : forall s0, failing s0 = [] ->
              save_embeddings (Some rj) s0 =
              (Ok (save_ok d (length xs)
                     ("gs://" ++ BUCKET_NAME ++ "/" ++ chunks_blob_name (py_str u) (py_str d))
                     (py_str fn)),
               mkStore true
                 (dict_set (metadata_blob_name (py_str u) (py_str d)) (Some m)
                    (dict_set (chunks_blob_name (py_str u) (py_str d)) (Some (JArr xs))
                       (objects s0))) [])).
    { intros s0 Hf0. rewrite Hr. unfold try_catch.
      rewrite (save_to_storage_healthy u d fn xs m s0 Hf0). reflexivity. }
    rewrite (Hp s Hf). cbn [snd]. rewrite Hp by reflexivity. cbn [objects].
    set (c := chunks_blob_name (py_str u) (py_str d)).
    set (mn := metadata_blob_name (py_str u) (py_str d)).
    set (D := dict_set mn (Some m) (dict_set c (Some (JArr xs)) (objects s))).
    assert (Hne : mn <> c) by (intros E; apply (chunks_metadata_names_differ (py_str u) (py_str d)); symmetry; exact E).
    assert (Hc : assoc c D = Some (Some (JArr xs)))
      by (unfold D; rewrite assoc_dict_set_other by (intros E; apply Hne; symmetry; exact E);
          apply assoc_dict_set_same).
    rewrite (dict_set_present c _ D Hc).
    rewrite (dict_set_present mn _ D) by (unfold D; apply assoc_dict_set_same).
    reflexivity.
Qed.

Lemma save_idempotent_witness :
  failing empty_store = [] /\
  save_embeddings (Some (save_request "u" "d" "f.pdf" [chunk0] meta0))
    (snd (save_embeddings (Some (save_request "u" "d" "f.pdf" [chunk0] meta0)) empty_store)) =
  save_embeddings (Some (save_request "u" "d" "f.pdf" [chunk0] meta0)) empty_store.
Proof. split; [reflexivity|apply save_idempotent; reflexivity]. Defined.

(** ** Composition of Save, Delete and Retrieve *)

Lemma NoDup_dict_set {A : Type} k (v : A) d :
  NoDup (map fst d) -> NoDup (map fst (dict_set k v d)).
Proof.
  intros Hnd. rewrite map_fst_dict_set.
  destruct (existsb (String.eqb k) (map fst d)) eqn:E; [exact Hnd|].
  apply NoDup_app; [exact Hnd|constructor; [tauto|constructor]|].
  intros a Ha [Ha' | []]. subst a.
  assert (existsb (String.eqb k) (map fst d) = true)
    by (apply existsb_exists; exists k; split; [exact Ha|apply String.eqb_refl]).
  congruence.
Qed.

Lemma chunks_under_document_prefix u d :
  String.prefix (document_prefix u d) (chunks_blob_name u d) = true.
Proof.
  replace (chunks_blob_name u d) with (document_prefix u d ++ "chunks.json");
    [apply prefix_app|].
  unfold chunks_blob_name, document_prefix. simpl. rewrite !str_app_assoc. simpl.
  rewrite !str_app_assoc. reflexivity.
Qed.

Lemma listing_drop_prefix p s :
  listing p (with_objects s (drop_prefix p (objects s))) = [].
Proof.
  unfold listing, drop_prefix, with_objects. simpl.
  induction (objects s) as [|[k v] t IH]; simpl; [reflexivity|].
  destruct (String.prefix p k) eqn:E; simpl; [exact IH|rewrite E; exact IH].
Qed.

Lemma assoc_drop_prefix p k o :
  String.prefix p k = true -> assoc k (drop_prefix p o) = None.
Proof.
  intros Hp. unfold drop_prefix. induction o as [|[k' v'] t IH]; simpl; [reflexivity|].
  destruct (String.prefix p k') eqn:E; simpl; [exact IH|].
  destruct (String.eqb_spec k k') as [->|_]; [congruence|exact IH].
Qed.

Lemma delete_doc_present u d s :
  failing s = [] -> bucket_present s = true -> d <> "" -> NoDup (map fst (objects s)) ->
  listing (document_prefix u d) s <> [] ->
  delete_embeddings (Some (doc_request u d)) s =
  (Ok (delete_ok 1 ("Successfully deleted document " ++ d)),
   with_objects s (drop_prefix (document_prefix u d) (objects s))).
Proof.
  intros Hf Hb Hd Hnd HL. rewrite delete_doc_request, Hb by assumption.
  unfold try_catch, delete_one, bind. simpl py_str.
  rewrite list_blobs_healthy by assumption.
  destruct (listing (document_prefix u d) s) as [|k L] eqn:EL; [congruence|].
  rewrite <- EL. rewrite delete_listing by assumption. reflexivity.
Qed.

Lemma delete_doc_absent u d s :
  failing s = [] -> bucket_present s = true -> d <> "" ->
  listing (document_prefix u d) s = [] ->
  delete_embeddings (Some (doc_request u d)) s =
  (Ok (error_resp 404 ("Document " ++ d ++ " not found")), s).
Proof.
  intros Hf Hb Hd HL. rewrite delete_doc_request, Hb by assumption.
  unfold try_catch, delete_one, bind. simpl py_str.
  rewrite list_blobs_healthy by assumption. rewrite HL. reflexivity.
Qed.

(** On a healthy store with distinct keys, a Save followed by a Delete of
    the same document succeeds (documentsDeleted 1), after which a
    single-document Retrieve of it answers 404. *)
Theorem save_delete_retrieve_not_found s u d fn xs m :
  failing s = [] -> xs <> [] -> d <> "" -> NoDup (map fst (objects s)) ->
  exists r1 s1 s2,
    save_embeddings (Some (save_request u d fn xs m)) s = (Ok r1, s1) /\
    resp_status r1 = 200%Z /\
    delete_embeddings (Some (doc_request u d)) s1 =
      (Ok (delete_ok 1 ("Successfully deleted document " ++ d)), s2) /\
    retrieve_embeddings (Some (doc_request u d)) s2 =
      (Ok (error_resp 404 ("Document " ++ d ++ " not found")), s2).
Proof.
  intros Hf Hxs Hd Hnd.
  rewrite save_request_valid by exact Hxs. unfold try_catch at 1.
  rewrite save_to_storage_healthy by exact Hf. cbn [py_str].
  set (s1 := mkStore true (dict_set (metadata_blob_name u d) (Some m)
               (dict_set (chunks_blob_name u d) (Some (JArr xs)) (objects s))) []).
  assert (Hnd1 : NoDup (map fst (objects s1))) by (apply NoDup_dict_set, NoDup_dict_set, Hnd).
  assert (Hc1 : In (chunks_blob_name u d) (listing (document_prefix u d) s1)).
  { unfold listing. apply filter_In. split; [|apply chunks_under_document_prefix].
    apply in_map_iff. exists (chunks_blob_name u d, Some (JArr xs)). split; [reflexivity|].
    apply assoc_some_in. cbn [objects s1].
    rewrite assoc_dict_set_other by apply chunks_metadata_names_differ.
    apply assoc_dict_set_same. }
  eexists; exists s1, (with_objects s1 (drop_prefix (document_prefix u d) (objects s1))).
  split; [reflexivity|split; [reflexivity|split]].
  - apply delete_doc_present; try reflexivity; try assumption.
    intros E. rewrite E in Hc1. exact Hc1.
  - rewrite retrieve_doc_request by (assumption || reflexivity). cbn [bucket_present with_objects s1].
    unfold try_catch.
    rewrite retrieve_one_missing; [reflexivity|reflexivity|reflexivity|].
    cbn [objects with_objects]. apply assoc_drop_prefix, chunks_under_document_prefix.
Qed.

Lemma save_delete_retrieve_not_found_witness :
  failing empty_store = [] /\ [chunk0] <> [] /\ "doc_456" <> "" /\
  NoDup (map fst (objects empty_store)) /\
  exists r1 s1 s2,
    save_embeddings (Some (save_request "user_123" "doc_456" "resume.pdf" [chunk0] meta0))
      empty_store = (Ok r1, s1) /\
    resp_status r1 = 200%Z /\
    delete_embeddings (Some (doc_request "user_123" "doc_456")) s1 =
      (Ok (delete_ok 1 ("Successfully deleted document " ++ "doc_456")), s2) /\
    retrieve_embeddings (Some (doc_request "user_123" "doc_456")) s2 =
      (Ok (error_resp 404 ("Document " ++ "doc_456" ++ " not found")), s2).
Proof.
  split; [reflexivity|split; [discriminate|split; [discriminate|split; [constructor|]]]].
  apply save_delete_retrieve_not_found; [reflexivity|discriminate|discriminate|constructor].
Defined.

(** A single-document Delete that succeeded removed everything under the
    document's prefix: repeating it answers 404 and changes nothing. *)
Theorem delete_document_twice u d s :
  failing s = [] -> bucket_present s = true -> d <> "" -> NoDup (map fst (objects s)) ->
  listing (document_prefix u d) s <> [] ->
  exists s2,
    delete_embeddings (Some (doc_request u d)) s =
      (Ok (delete_ok 1 ("Successfully deleted document " ++ d)), s2) /\
    delete_embeddings (Some (doc_request u d)) s2 =
      (Ok (error_resp 404 ("Document " ++ d ++ " not found")), s2).
Proof.
  intros Hf Hb Hd Hnd HL.
  exists (with_objects s (drop_prefix (document_prefix u d) (objects s))).
  split; [apply delete_doc_present; assumption|].
  apply delete_doc_absent; [exact Hf|exact Hb|exact Hd|apply listing_drop_prefix].
Qed.

Lemma delete_document_twice_witness :
  let s := mkStore true [(doc_key "u" "d" "chunks.json", Some (JArr []))] [] in
  failing s = [] /\ bucket_present s = true /\ "d" <> "" /\ NoDup (map fst (objects s)) /\
  listing (document_prefix "u" "d") s <> [] /\
  exists s2,
    delete_embeddings (Some (doc_request "u" "d")) s =
      (Ok (delete_ok 1 ("Successfully deleted document " ++ "d")), s2) /\
    delete_embeddings (Some (doc_request "u" "d")) s2 =
      (Ok (error_resp 404 ("Document " ++ "d" ++ " not found")), s2).
Proof.
  intros s.
  assert (HL : listing (document_prefix "u" "d") s <> []) by (vm_compute; discriminate).
  assert (Hnd : NoDup (map fst (objects s))) by (repeat constructor; simpl; tauto).
  split; [reflexivity|split; [reflexivity|split; [discriminate|split; [exact Hnd|split; [exact HL|]]]]].
  apply delete_document_twice; [reflexivity|reflexivity|discriminate|exact Hnd|exact HL].
Defined.

(** After an all-documents Delete on a healthy store with distinct keys,
    whether or not the bucket exists, an all-documents Retrieve of the same
    user finds nothing: it answers 200 with no chunks, no metadata and
    documentsCount 0. *)
Theorem delete_all_then_retrieve_empty u s :
  failing s = [] -> NoDup (map fst (objects s)) ->
  exists r s2 r2,
    delete_embeddings (Some (user_request u)) s = (Ok r, s2) /\
    retrieve_embeddings (Some (user_request u)) s2 = (Ok r2, s2) /\
    resp_status r2 = 200%Z /\
    resp_field r2 "chunks" = Some (JArr []) /\
    resp_field r2 "metadata" = Some (JArr []) /\
    resp_field r2 "documentsCount" = Some (JNum 0).
Proof.
  intros Hf Hnd. destruct (bucket_present s) eqn:Hb.
  - destruct (delete_all_spec u s Hf Hb Hnd) as [ds [_ [_ Hdel]]].
    do 2 eexists; exists (retrieve_ok [] []). split; [exact Hdel|].
    split; [|repeat split].
    rewrite retrieve_user_request by (simpl; exact Hf). simpl bucket_present. rewrite Hb.
    unfold try_catch, retrieve_all, bind. cbn [py_str].
    rewrite list_blobs_healthy by (simpl; assumption).
    fold (drop_prefix (user_prefix u) (objects s)). rewrite listing_drop_prefix.
    reflexivity.
  - exists nothing_to_delete, s, no_documents.
    rewrite delete_user_request, retrieve_user_request, Hb by exact Hf.
    repeat split.
Qed.

Lemma delete_all_then_retrieve_empty_witness :
  let s := mkStore true [(doc_key "u" "d" "chunks.json", Some (JArr [chunk0]));
                         (doc_key "v" "d" "chunks.json", Some (JArr []))] [] in
  (exists r s2 r2,
    delete_embeddings (Some (user_request "u")) s = (Ok r, s2) /\
    retrieve_embeddings (Some (user_request "u")) s2 = (Ok r2, s2) /\
    resp_status r2 = 200%Z /\
    resp_field r2 "chunks" = Some (JArr []) /\
    resp_field r2 "metadata" = Some (JArr []) /\
    resp_field r2 "documentsCount" = Some (JNum 0)) /\
  (exists r s2 r2,
    delete_embeddings (Some (user_request "u")) empty_store = (Ok r, s2) /\
    retrieve_embeddings (Some (user_request "u")) s2 = (Ok r2, s2) /\
    resp_status r2 = 200%Z /\
    resp_field r2 "chunks" = Some (JArr []) /\
    resp_field r2 "metadata" = Some (JArr []) /\
    resp_field r2 "documentsCount" = Some (JNum 0)).
Proof.
  intros s.
  assert (Hnd : NoDup (map fst (objects s))).
  { cbv [s objects map fst doc_key].
    repeat constructor; simpl; intuition discriminate. }
  split.
  - exact (delete_all_then_retrieve_empty "u" s eq_refl Hnd).
  - exact (delete_all_then_retrieve_empty "u" empty_store eq_refl (NoDup_nil _)).
Defined.

(** ** Save when a storage call fails *)

(** Save writes [chunks.json] before [metadata.json] and undoes nothing:
    when only the metadata upload fails, the answer is 500 but the chunks
    object has been written (over an older one) and the bucket, if it was
    missing, has been created. *)
Theorem save_metadata_failure_keeps_chunks u d fn xs m s :
  xs <> [] -> failing s = [OpUpload (metadata_blob_name u d)] ->
  exists e,
    save_embeddings (Some (save_request u d fn xs m)) s =
    (Ok (error_resp 500 e),
     mkStore true (dict_set (chunks_blob_name u d) (Some (JArr xs)) (objects s)) (failing s)).
Proof.
  intros Hxs Hf. rewrite save_request_valid by exact Hxs.
  unfold try_catch. rewrite save_to_storage_spec. cbv zeta. cbn [py_str].
  assert (Hne : String.eqb (chunks_blob_name u d) (metadata_blob_name u d) = false)
    by (apply String.eqb_neq, chunks_metadata_names_differ).
  destruct s as [b o f]; cbn [failing objects] in *; subst f.
  assert (Hs : bucket_step (mkStore b o [OpUpload (metadata_blob_name u d)]) =
               mkStore true o [OpUpload (metadata_blob_name u d)]) by (destruct b; reflexivity).
  rewrite Hs, upload_spec. cbn [failing existsb op_eqb bucket_present]. rewrite Hne. cbn [orb].
  rewrite upload_spec. cbn [failing existsb op_eqb with_objects]. rewrite String.eqb_refl.
  eexists. reflexivity.
Qed.

Lemma save_metadata_failure_keeps_chunks_witness :
  let f := [OpUpload (metadata_blob_name "u" "d")] in
  let old := [(chunks_blob_name "u" "d", Some (JArr []))] in
  (exists e,
     save_embeddings (Some (save_request "u" "d" "f.pdf" [chunk0] meta0)) (mkStore false [] f) =
     (Ok (error_resp 500 e),
      mkStore true (dict_set (chunks_blob_name "u" "d") (Some (JArr [chunk0])) []) f)) /\
  (exists e,
     save_embeddings (Some (save_request "u" "d" "f.pdf" [chunk0] meta0)) (mkStore true old f) =
     (Ok (error_resp 500 e),
      mkStore true (dict_set (chunks_blob_name "u" "d") (Some (JArr [chunk0])) old) f)).
Proof.
  intros f old. split.
  - exact (save_metadata_failure_keeps_chunks "u" "d" "f.pdf" [chunk0] meta0 (mkStore false [] f)
             ltac:(discriminate) eq_refl).
  - exact (save_metadata_failure_keeps_chunks "u" "d" "f.pdf" [chunk0] meta0 (mkStore true old f)
             ltac:(discriminate) eq_refl).
Defined.

(** The bucket error swallowed by Save resurfaces at the first upload:
    when the bucket is missing and cannot be created, a valid Save answers
    500 and leaves the store unchanged. *)
Theorem save_without_bucket_fails u d fn xs m s :
  xs <> [] -> bucket_present s = false ->
  existsb (op_eqb OpCreateBucket) (failing s) = true ->
  exists e, save_embeddings (Some (save_request u d fn xs m)) s = (Ok (error_resp 500 e), s).
Proof.
  intros Hxs Hb Hc. rewrite save_request_valid by exact Hxs.
  unfold try_catch. rewrite save_to_storage_spec. cbv zeta.
  assert (Hs : bucket_step s = s).
  { unfold bucket_step. destruct (existsb (op_eqb OpBucketExists) (failing s)); [reflexivity|].
    rewrite Hb, Hc. reflexivity. }
  rewrite Hs, upload_spec, Hb.
  destruct (existsb (op_eqb (OpUpload _)) (failing s)); eexists; reflexivity.
Qed.

Lemma save_without_bucket_fails_witness :
  [chunk0] <> [] /\ bucket_present (mkStore false [] [OpCreateBucket]) = false /\
  existsb (op_eqb OpCreateBucket) (failing (mkStore false [] [OpCreateBucket])) = true /\
  exists e, save_embeddings (Some (save_request "u" "d" "f.pdf" [chunk0] meta0))
              (mkStore false [] [OpCreateBucket]) =
            (Ok (error_resp 500 e), mkStore false [] [OpCreateBucket]).
Proof.
  split; [discriminate|split; [reflexivity|split; [reflexivity|]]].
  apply save_without_bucket_fails; [discriminate|reflexivity|reflexivity].
Defined.

(** ** User ids holding a slash *)

Lemma user_prefix_nested u x t :
  String.prefix (user_prefix u) ("users/" ++ (u ++ "/documents/" ++ x) ++ t) = true.
Proof.
  replace ("users/" ++ (u ++ "/documents/" ++ x) ++ t)
    with (user_prefix u ++ (x ++ t)); [apply prefix_app|].
  unfold user_prefix. simpl. rewrite !str_app_assoc. reflexivity.
Qed.

(** Object keys are not escaped, so a user id such as [u/documents/x]
    places that user's objects under the prefix of user [u]: after a Save
    for user [u/documents/x], an all-documents Delete for user [u] removes
    both of the saved objects. *)
Theorem delete_all_reaches_nested_user_ids s u x d fn xs m :
  failing s = [] -> xs <> [] -> NoDup (map fst (objects s)) ->
  let v := u ++ "/documents/" ++ x in
  exists r1 s1 r2 s2,
    save_embeddings (Some (save_request v d fn xs m)) s = (Ok r1, s1) /\
    resp_status r1 = 200%Z /\
    assoc (chunks_blob_name v d) (objects s1) = Some (Some (JArr xs)) /\
    delete_embeddings (Some (user_request u)) s1 = (Ok r2, s2) /\
    assoc (chunks_blob_name v d) (objects s2) = None /\
    assoc (metadata_blob_name v d) (objects s2) = None.
Proof.
  intros Hf Hxs Hnd v.
  rewrite save_request_valid by exact Hxs. unfold try_catch at 1.
  rewrite save_to_storage_healthy by exact Hf. cbn [py_str].
  set (s1 := mkStore true (dict_set (metadata_blob_name v d) (Some m)
               (dict_set (chunks_blob_name v d) (Some (JArr xs)) (objects s))) []).
  assert (Hnd1 : NoDup (map fst (objects s1))) by (apply NoDup_dict_set, NoDup_dict_set, Hnd).
  destruct (delete_all_spec u s1 eq_refl eq_refl Hnd1) as [ds [_ [_ Hdel]]].
  eexists; exists s1; do 2 eexists. split; [reflexivity|split; [reflexivity|split; [|split; [exact Hdel|]]]].
  - cbn [objects s1]. rewrite assoc_dict_set_other by apply chunks_metadata_names_differ.
    apply assoc_dict_set_same.
  - cbn [objects with_objects]. fold (drop_prefix (user_prefix u) (objects s1)).
    split; apply assoc_drop_prefix; unfold chunks_blob_name, metadata_blob_name;
      apply user_prefix_nested.
Qed.

Lemma delete_all_reaches_nested_user_ids_witness :
  failing empty_store = [] /\ [chunk0] <> [] /\ NoDup (map fst (objects empty_store)) /\
  let v := "alice" ++ "/documents/" ++ "x" in
  exists r1 s1 r2 s2,
    save_embeddings (Some (save_request v "doc" "f.pdf" [chunk0] meta0)) empty_store
      = (Ok r1, s1) /\
    resp_status r1 = 200%Z /\
    assoc (chunks_blob_name v "doc") (objects s1) = Some (Some (JArr [chunk0])) /\
    delete_embeddings (Some (user_request "alice")) s1 = (Ok r2, s2) /\
    assoc (chunks_blob_name v "doc") (objects s2) = None /\
    assoc (metadata_blob_name v "doc") (objects s2) = None.
Proof.
  split; [reflexivity|split; [discriminate|split; [constructor|]]].
  apply delete_all_reaches_nested_user_ids; [reflexivity|discriminate|constructor].
Defined.
